(** * RNNoise controller for PulseAudio: a shallow embedding of [rnnoise.py]

    The script is a command-line tool with four actions (install, uninstall,
    enable, disable).  Its functions talk to the file system, to the release
    API and to the PulseAudio control tools; the embedding threads an explicit
    [World] through a small state-and-exception monad and records every
    observable effect in a trace of events. *)

From Stdlib Require Import ZArith Ascii String Numbers.DecimalString.
From stdpp Require Import base option list gmap strings.

Local Open Scope Z_scope.

(** ** Python strings *)

Module Py.

(** The double-quote character (code 34). *)
Definition dquote : ascii := "034"%char.

(** The line-feed character (code 10), as a string. *)
Definition newline : string := String "010"%char "".

(** [s[n:]] *)
Fixpoint drop (n : nat) (s : string) : string :=
  match n, s with
  | S k, String _ s' => drop k s'
  | _, _ => s
  end.

(** [s.startswith(p)] *)
Definition startswith (s p : string) : bool := String.prefix p s.

(** One more character for the segment at the head. *)
Definition cons_head (c : ascii) (segs : list string) : list string :=
  match segs with
  | seg :: rest => String c seg :: rest
  | [] => [String c ""]
  end.

(** [s.split(sep)] for a non-empty separator: the string is scanned from the
    left and cut at every occurrence of [sep] that does not overlap the
    previous one.  [skip] counts the characters of a separator still to be
    dropped; the head of the result is the segment being read. *)
Fixpoint split_go (sep : string) (skip : nat) (s : string) : list string :=
  match s with
  | EmptyString => [""]
  | String c s' =>
      match skip with
      | S k => split_go sep k s'
      | O =>
          if String.prefix sep s
          then "" :: split_go sep (Nat.pred (String.length sep)) s'
          else cons_head c (split_go sep O s')
      end
  end.

Definition split (sep s : string) : list string := split_go sep O s.

(** [sep.join(l)] *)
Definition join (sep : string) (l : list string) : string := String.concat sep l.

(** [s.replace(old, new)] for a one-character [old] *)
Fixpoint replace_char (old : ascii) (new : string) (s : string) : string :=
  match s with
  | EmptyString => ""
  | String c s' =>
      (if Ascii.eqb c old then new else String c "") +:+ replace_char old new s'
  end.

Fixpoint lstrip (ch : ascii) (s : string) : string :=
  match s with
  | String c s' => if Ascii.eqb c ch then lstrip ch s' else s
  | EmptyString => ""
  end.

Fixpoint rev (s : string) : string :=
  match s with
  | EmptyString => ""
  | String c s' => rev s' +:+ String c ""
  end.

(** [s.strip(ch)] for a one-character set *)
Definition strip (ch : ascii) (s : string) : string :=
  rev (lstrip ch (rev (lstrip ch s))).

(** [l[-1]] on the result of a split (never empty) *)
Definition last_item (l : list string) : string := List.last l "".

(** [str(n)] for an integer *)
Definition str_of_int (n : Z) : string := NilZero.string_of_int (Z.to_int n).

(** The text of [s] up to its first occurrence of [sep] (all of [s] when
    there is none). *)
Fixpoint before_first (sep s : string) : string :=
  match s with
  | EmptyString => ""
  | String c s' => if String.prefix sep s then "" else String c (before_first sep s')
  end.

(** [c in s] for a character *)
Fixpoint has_char (c : ascii) (s : string) : bool :=
  match s with
  | EmptyString => false
  | String c' s' => Ascii.eqb c' c || has_char c s'
  end.

(** [sep] occurs somewhere in [s] *)
Definition contains (sep s : string) : Prop := ∃ a b, s = a +:+ sep +:+ b.

End Py.

(** ** [shlex.join] *)

Module Shlex.

(** The characters [shlex.quote] leaves alone: [[A-Za-z0-9_@%+=:,./-]]. *)
Definition is_safe (c : ascii) : bool :=
  ((("a" <=? c) && (c <=? "z")) || (("A" <=? c) && (c <=? "Z"))
   || (("0" <=? c) && (c <=? "9"))
   || bool_decide (c ∈ ["_"; "@"; "%"; "+"; "="; ":"; ","; "."; "/"; "-"]))%char.

Fixpoint all_safe (s : string) : bool :=
  match s with
  | EmptyString => true
  | String c s' => is_safe c && all_safe s'
  end.

(** What replaces a single quote inside a quoted argument: the quote is
    closed, a single quote is written between double quotes, and the quote is
    opened again. *)
Definition escaped_quote : string :=
  String "'" (String Py.dquote (String "'" (String Py.dquote (String "'" "")))).

Definition quote (s : string) : string :=
  if bool_decide (s = "") then "''"
  else if all_safe s then s
  else "'" +:+ Py.replace_char "'" escaped_quote s +:+ "'".

Definition join (command : list string) : string :=
  Py.join " " (quote <$> command).

End Shlex.

(** ** [pathlib] paths (POSIX flavour) *)

Module Pathlib.

(** A path is its root (empty, one slash or two slashes) and its components;
    empty components and single dots are dropped when a path is built. *)
Record Path := { root : string; parts : list string }.

Fixpoint leading_slashes (s : string) : nat :=
  match s with
  | String "/" s' => S (leading_slashes s')
  | _ => O
  end.

(** [pathlib.Path(s)] *)
Definition of_str (s : string) : Path :=
  {| root := match leading_slashes s with
             | O => ""
             | 2%nat => "//"
             | _ => "/"
             end;
     parts := filter (λ x, x ≠ "" ∧ x ≠ ".") (Py.split "/" s) |}.

(** [str(p)] *)
Definition str (p : Path) : string :=
  match root p, parts p with
  | EmptyString, [] => "."
  | r, l => r +:+ Py.join "/" l
  end.

(** [p / s]: a second operand with a root replaces the first. *)
Definition div (p : Path) (s : string) : Path :=
  let q := of_str s in
  if bool_decide (root q = "") then {| root := root p; parts := parts p ++ parts q |}
  else q.

End Pathlib.

Abbreviation Path := Pathlib.Path.
Infix "</>" := Pathlib.div (at level 40, left associativity).

(** ** The world the script runs in *)

(** Exceptions the script can meet.  [SystemExit] is what [sys.exit] raises;
    it is not a subclass of [Exception].  [OSError] stands for its subclasses
    too: [FileNotFoundError] and [PermissionError] among them. *)
Inductive exn :=
  | CalledProcessError (returncode : Z) (cmd : list string)
  | UnboundLocalError (name : string)
  | IndexError
  | ValueError
  | OSError
  | ReadError
  | SystemExit (code : Z).

(** [isinstance(e, Exception)] *)
Definition is_Exception (e : exn) : bool :=
  match e with
  | SystemExit _ => false
  | _ => true
  end.

Inductive stream := stdout | stderr.

(** Absolute locations in the file system: the components from the root. *)
Abbreviation loc := (list string).

(** What the script does to the world around it.  [Run argv] is a call of
    [subprocess.run] with that command line, recorded whether or not the
    program could be started. *)
Inductive event :=
  | Print (to : stream) (text : string)
  | Run (argv : list string)
  | Get (url : string)
  | Mkdir (at_ : loc)
  | Rmtree (at_ : loc)
  | Write_ (at_ : loc) (content : string)
  | Unlink (at_ : loc)
  | Extractall (archive : loc) (dest : loc)
  | Traceback (e : exn).

Inductive node := Dir | File (content : string).

(** One asset of a release listing. *)
Record asset := { name : string; browser_download_url : string }.

(** What [requests.get] answers: the final URL (after redirects), the
    headers (keyed by lower-case name), the body in the chunks [iter_content]
    yields, and the body read as a release listing (its [assets] list). *)
Record response := {
  r_url : string;
  r_headers : gmap string string;
  r_chunks : list string;
  r_assets : list asset
}.

(** The world: the file system (locations of directories and files, the root
    being a directory), the working directory, which programs can be
    executed (by the path they are called by), how the sound server's tools
    answer when they are (exit status and standard output of a command, given
    the commands called before it), how the network answers, and the events
    so far, oldest first. *)
Record World := {
  w_fs : gmap loc node;
  w_cwd : loc;
  w_exec : string → bool;
  w_tools : list (list string) → list string → Z * string;
  w_http : string → response;
  w_trace : list event
}.

Definition with_trace (w : World) (t : list event) : World :=
  {| w_fs := w_fs w; w_cwd := w_cwd w; w_exec := w_exec w; w_tools := w_tools w;
     w_http := w_http w; w_trace := t |}.

Definition with_fs (w : World) (fs : gmap loc node) : World :=
  {| w_fs := fs; w_cwd := w_cwd w; w_exec := w_exec w; w_tools := w_tools w;
     w_http := w_http w; w_trace := w_trace w |}.

(** The command lines passed to [subprocess.run] in a trace, oldest first. *)
Definition calls (t : list event) : list (list string) :=
  omap (λ e, match e with Run argv => Some argv | _ => None end) t.

(** ** The monad: state and exceptions *)

Inductive result (A : Type) :=
  | Returned (a : A)
  | Raised (e : exn).
Arguments Returned {A} a.
Arguments Raised {A} e.

Definition M (A : Type) : Type := World → result A * World.

Definition ret {A} (a : A) : M A := λ w, (Returned a, w).

Definition bind {A B} (m : M A) (k : A → M B) : M B :=
  λ w, match m w with
       | (Returned a, w') => k a w'
       | (Raised e, w') => (Raised e, w')
       end.

Definition raise {A} (e : exn) : M A := λ w, (Raised e, w).

(** [try: body / except Exception: handler e] *)
Definition try_except_Exception {A} (body : M A) (handler : exn → M A) : M A :=
  λ w, match body w with
       | (Raised e, w') => if is_Exception e then handler e w' else (Raised e, w')
       | r => r
       end.

#[global] Instance M_ret : MRet M := @ret.
#[global] Instance M_bind : MBind M := λ A B k m, bind m k.

(** [for x in xs: body x] *)
Fixpoint for_in {A} (xs : list A) (body : A → M unit) : M unit :=
  match xs with
  | [] => ret tt
  | x :: xs' => body x;; for_in xs' body
  end.

(** A loop that carries the local variables it assigns. *)
Fixpoint for_fold {A S} (xs : list A) (body : S → A → M S) (s : S) : M S :=
  match xs with
  | [] => ret s
  | x :: xs' => s' ← body s x; for_fold xs' body s'
  end.

Definition emit (e : event) : M unit :=
  λ w, (Returned tt, with_trace w (w_trace w ++ [e])).

(** [print(text)] and [print(text, file=sys.stderr)] *)
Definition print (to : stream) (text : string) : M unit := emit (Print to text).

(** [sys.exit(code)] *)
Definition sys_exit {A} (code : Z) : M A := raise (SystemExit code).

(** Reading a local variable that no assignment has reached. *)
Definition local_var {A} (name : string) (v : option A) : M A :=
  match v with
  | Some a => ret a
  | None => raise (UnboundLocalError name)
  end.

(** [l[i]] *)
Definition item {A} (l : list A) (i : nat) : M A :=
  match l !! i with
  | Some a => ret a
  | None => raise IndexError
  end.

(** [subprocess.run(argv, check=check)]: the program named by the first
    word is started.  When it cannot be executed (no such file, no
    permission) the call raises [OSError], whatever [check] says, and nothing
    has run; an empty command line raises [IndexError].  Otherwise the tool
    runs to its end; with [check] a non-zero exit status raises
    [CalledProcessError].  The result is the exit status and the captured
    standard output (decoded). *)
Definition subprocess_run (argv : list string) (check : bool) : M (Z * string) :=
  λ w, let w' := with_trace w (w_trace w ++ [Run argv]) in
       match argv with
       | [] => (Raised IndexError, w')
       | program :: _ =>
           if w_exec w program
           then
             let r := w_tools w (calls (w_trace w)) argv in
             if check && negb (r.1 =? 0)
             then (Raised (CalledProcessError r.1 argv), w')
             else (Returned r, w')
           else (Raised OSError, w')
       end.

(** ** Regular expressions: the one pattern of the script *)

Module Re.

(** The leftmost match of [filename=(.+)] in a line (a text with no line
    feed): the group is what follows the first [filename=] up to the end of
    the line, and must not be empty. *)
Fixpoint search_filename (line : string) : option string :=
  match line with
  | EmptyString => None
  | String _ line' =>
      if String.prefix "filename=" line
      then match Py.drop 9 line with
           | EmptyString => None
           | rest => Some rest
           end
      else search_filename line'
  end.

(** [re.findall(pattern, s)] for that pattern: the dot matches no line feed, so
    each line gives at most one match. *)
Definition findall_filename (s : string) : list string :=
  omap search_filename (Py.split Py.newline s).

End Re.

(** ** File-system and network primitives *)

Module Fs.

(** Components are followed from the working directory (or from the root);
    a double dot goes back one component. *)
Fixpoint walk (seen : loc) (l : list string) : loc :=
  match l with
  | [] => reverse seen
  | x :: l' => if bool_decide (x = "..") then walk (tail seen) l' else walk (x :: seen) l'
  end.

Definition resolve (cwd : loc) (p : Path) : loc :=
  walk (if bool_decide (Pathlib.root p = "") then reverse cwd else []) (Pathlib.parts p).

Definition node_at (fs : gmap loc node) (l : loc) : option node :=
  match l with
  | [] => Some Dir
  | _ => fs !! l
  end.

Definition is_dir_at (fs : gmap loc node) (l : loc) : bool :=
  match node_at fs l with
  | Some Dir => true
  | _ => false
  end.

Definition is_file_at (fs : gmap loc node) (l : loc) : bool :=
  match node_at fs l with
  | Some (File _) => true
  | _ => false
  end.

(** What is left when the tree under [l] is removed. *)
Definition remove_tree (fs : gmap loc node) (l : loc) : gmap loc node :=
  filter (λ kv, ¬ l `prefix_of` kv.1) fs.

(** Creating the directories [done ++ todo], one component at a time; a file
    in the way makes it fail. *)
Fixpoint make_dirs (fs : gmap loc node) (done todo : loc) : option (gmap loc node) :=
  match todo with
  | [] => Some fs
  | x :: todo' =>
      let d := done ++ [x] in
      match fs !! d with
      | None => make_dirs (<[d := Dir]> fs) d todo'
      | Some Dir => make_dirs fs d todo'
      | Some (File _) => None
      end
  end.

Definition parent (l : loc) : loc := removelast l.

(** A file can be written at [l]: [l] lies in an existing directory and is
    not a directory. *)
Definition writable (fs : gmap loc node) (l : loc) : bool :=
  bool_decide (l ≠ []) && is_dir_at fs (parent l) && negb (is_dir_at fs l).

End Fs.

(** [p.is_dir()] *)
Definition is_dir (p : Path) : M bool :=
  λ w, (Returned (Fs.is_dir_at (w_fs w) (Fs.resolve (w_cwd w) p)), w).

(** [p.is_file()] *)
Definition is_file (p : Path) : M bool :=
  λ w, (Returned (Fs.is_file_at (w_fs w) (Fs.resolve (w_cwd w) p)), w).

(** [shutil.rmtree(p)]: the tree at the location of [p] is removed, the
    directory included; a location that is no directory raises.  The file
    system here has directories and files only, no symbolic links, and a
    directory is removed the same way under every spelling of its path: the
    library's refusal to remove the directory itself when the path is [.] or
    a root, after it has emptied it, is not told apart. *)
Definition rmtree (p : Path) : M unit :=
  λ w, let l := Fs.resolve (w_cwd w) p in
       let w' := with_trace w (w_trace w ++ [Rmtree l]) in
       if Fs.is_dir_at (w_fs w) l then (Returned tt, with_fs w' (Fs.remove_tree (w_fs w) l))
       else (Raised OSError, w').

(** [p.mkdir(parents=True, exist_ok=True)] *)
Definition mkdir_parents (p : Path) : M unit :=
  λ w, let l := Fs.resolve (w_cwd w) p in
       let w' := with_trace w (w_trace w ++ [Mkdir l]) in
       match Fs.make_dirs (w_fs w) [] l with
       | Some fs' => (Returned tt, with_fs w' fs')
       | None => (Raised OSError, w')
       end.

(** [open(p, mode)] for writing, the writes and the close: the file must lie in
    an existing directory and must not be a directory itself. *)
Definition write_file (p : Path) (content : string) : M unit :=
  λ w, let l := Fs.resolve (w_cwd w) p in
       let w' := with_trace w (w_trace w ++ [Write_ l content]) in
       if Fs.writable (w_fs w) l
       then (Returned tt, with_fs w' (<[l := File content]> (w_fs w)))
       else (Raised OSError, w').

(** [p.unlink()] *)
Definition unlink (p : Path) : M unit :=
  λ w, let l := Fs.resolve (w_cwd w) p in
       let w' := with_trace w (w_trace w ++ [Unlink l]) in
       if Fs.is_file_at (w_fs w) l then (Returned tt, with_fs w' (delete l (w_fs w)))
       else (Raised OSError, w').

(** [requests.get(url)]: the network answers. *)
Definition requests_get (url : string) : M response :=
  λ w, (Returned (w_http w url), with_trace w (w_trace w ++ [Get url])).

(** ** The script *)

Definition PACMD : string := "/usr/bin/pacmd".
Definition PACTL : string := "/usr/bin/pactl".

Inductive action := install | uninstall | enable | disable.

(** The parsed command line. *)
Record Args := { action_ : action; path : Path; monitor : bool }.

(** The release listing the install action asks for. *)
Definition RELEASES_LATEST : string :=
  "https://api.github.com/repos/werman/noise-suppression-for-voice/releases/latest".

Section Script.

(** Library functions the script calls and that are taken as given:
    [urllib.parse.unquote], [int] on a string (no result: [ValueError]) and
    [tarfile.open(archive).extractall(dest)] on the bytes of the archive (no
    result: the archive cannot be read). *)
Variable unquote : string → string.
Variable int : string → option Z.
Variable tar_extractall : string → loc → gmap loc node → option (gmap loc node).

(** [tarfile.open(archive)] and [extractall(dest)] *)
Definition extractall (archive dest : Path) : M unit :=
  λ w, let a := Fs.resolve (w_cwd w) archive in
       let d := Fs.resolve (w_cwd w) dest in
       let w' := with_trace w (w_trace w ++ [Extractall a d]) in
       match Fs.node_at (w_fs w) a with
       | Some (File bytes) =>
           match tar_extractall bytes d (w_fs w) with
           | Some fs' => (Returned tt, with_fs w' fs')
           | None => (Raised ReadError, w')
           end
       | _ => (Raised OSError, w')
       end.

(** The file name a content-disposition header gives, if any: the first match
    of the pattern, without the double quotes around it. *)
Definition disposition_file_name (disposition : string) : option string :=
  match Re.findall_filename disposition with
  | m :: _ => Some (Py.strip Py.dquote m)
  | [] => None
  end.

(** [int(n)] *)
Definition int_of (n : string) : M Z :=
  match int n with
  | Some z => mret z
  | None => raise ValueError
  end.

(** [if save_as:] holds for a string that is not empty. *)
Definition truthy (save_as : option string) : bool :=
  match save_as with
  | Some s => bool_decide (s ≠ "")
  | None => false
  end.

Definition download (url : string) (save_as save_path : option string)
    (chunk_size : Z) : M Path :=
  (* create requests stream for steaming file *)
  stream ← requests_get url;
  (* determine output file path *)
  output_file ←
    (if truthy save_as then
       (* exact output file name specified *)
       mret (Pathlib.of_str (default "" save_as))
     else
       (* get file name *)
       let file_name :=
         match r_headers stream !! "content-disposition" with
         | Some disposition => disposition_file_name disposition
         | None => None
         end in
       (* if save_path is not specified, use current directory *)
       let save_path := Pathlib.of_str (default "." save_path) in
       (* create target folder if it doesn't exist *)
       mkdir_parents save_path;;
       (* if no file name could be determined, create file name from URL *)
       let output_file :=
         match file_name with
         | None => save_path </> Py.last_item (Py.split "/" (r_url stream))
         | Some file_name => save_path </> file_name
         end in
       (* decode url encoding *)
       mret (Pathlib.of_str (unquote (Pathlib.str output_file))));
  (* get total size for progress bar if provided in headers *)
  total_size ←
    match r_headers stream !! "content-length" with
    | Some n => int_of n
    | None => mret 0
    end;
  (* print download information summary *)
  print stdout ("Downloading: " +:+ url);;
  print stdout ("Total size: " +:+ Py.str_of_int total_size);;
  print stdout ("Chunk size: " +:+ Py.str_of_int chunk_size);;
  print stdout ("Saving to: " +:+ Pathlib.str output_file);;
  (* write content into file *)
  write_file output_file
    (String.concat "" (filter (λ chunk, chunk ≠ "") (r_chunks stream)));;
  (* return the full path of saved file *)
  mret output_file.

(** The loop of [get_default_sinks]: the two local variables start unbound
    and every line with one of the two prefixes assigns one of them. *)
Definition sinks_of_line (vars : option string * option string) (line : string)
    : M (option string * option string) :=
  input_sink ←
    (if Py.startswith line "Default source name: "
     then v ← item (Py.split ": " line) 1; mret (Some v)
     else mret vars.1);
  output_sink ←
    (if Py.startswith line "Default sink name: "
     then v ← item (Py.split ": " line) 1; mret (Some v)
     else mret vars.2);
  mret (input_sink, output_sink).

Definition get_default_sinks : M (string * string) :=
  pacmd_stat ← subprocess_run [PACMD; "stat"] false;
  vars ← for_fold (Py.split Py.newline pacmd_stat.2) sinks_of_line (None, None);
  input_sink ← local_var "input_sink" vars.1;
  output_sink ← local_var "output_sink" vars.2;
  mret (input_sink, output_sink).

(** The global [args]. *)
Variable args : Args.

(** The plugin binary under the install directory. *)
Definition ladspa_file : Path :=
  path args </> "bin" </> "ladspa" </> "librnnoise_ladspa.so".

(** The five commands of [enable_rnnoise], in the order of the source. *)
Definition enable_commands (input_sink : string) : list (list string) :=
  [ [PACMD; "load-module"; "module-null-sink"; "sink_name=mic_denoised_out";
     "rate=48000"];
    [PACMD; "load-module"; "module-ladspa-sink"; "sink_name=mic_raw_in";
     "sink_master=mic_denoised_out"; "label=noise_suppressor_mono";
     "plugin=" +:+ Pathlib.str ladspa_file; "control=95"];
    [PACMD; "load-module"; "module-loopback"; "source=" +:+ input_sink;
     "sink=mic_raw_in"; "channels=1"];
    [PACMD; "load-module"; "module-remap-source"; "source_name=denoised";
     "master=mic_denoised_out.monitor"; "channels=1"];
    [PACMD; "set-default-source"; "denoised"] ].

Definition enable_rnnoise : M unit :=
  print stderr "Enabling RNNoise for PulseAudio";;
  print stderr "Loading PulseAudio module";;
  sinks ← get_default_sinks;
  (* check if librnnoise_ladspa.so exists *)
  found ← is_file ladspa_file;
  (if (found : bool)
   then print stderr ("Found librnnoise_ladspa.so at: " +:+ Pathlib.str ladspa_file)
   else print stderr "librnnoise_ladspa.so not found";; sys_exit 1);;
  print stderr ("Found input sink: " +:+ sinks.1);;
  print stderr ("Found output sink: " +:+ sinks.2);;
  for_in (enable_commands sinks.1) (λ command,
    print stderr (Shlex.join command);;
    subprocess_run command true;;
    mret tt).

(** The four commands of [disable_rnnoise], in the order of the source. *)
Definition disable_commands : list (list string) :=
  [ [PACTL; "unload-module"; "module-loopback"];
    [PACTL; "unload-module"; "module-null-sink"];
    [PACTL; "unload-module"; "module-ladspa-sink"];
    [PACTL; "unload-module"; "module-remap-source"] ].

Definition disable_rnnoise : M unit :=
  print stderr "Disabling RNNoise for PulseAudio";;
  print stderr "Unloading modules from PulseAudio";;
  for_in disable_commands (λ command,
    print stderr (Shlex.join command);;
    subprocess_run command false;;
    mret tt).

Definition monitor_command (output_sink : string) : list string :=
  [PACMD; "load-module"; "module-loopback"; "latency_msec=1"; "source=denoised";
   "sink=" +:+ output_sink].

Definition enable_monitoring : M unit :=
  print stderr "Enabling monitoring on denoised input";;
  sinks ← get_default_sinks;
  let command := monitor_command sinks.2 in
  print stderr (Shlex.join command);;
  subprocess_run command false;;
  mret tt.

(** The loop of the install action over the assets of the listing: every
    asset whose name starts with [linux] assigns [download_url]. *)
Definition resolve_download_url (assets : list asset) : option string :=
  foldl (λ download_url asset,
           if Py.startswith (name asset) "linux"
           then Some (browser_download_url asset)
           else download_url)
        None assets.

Definition install_action : M unit :=
  exists_ ← is_dir (path args);
  (if (exists_ : bool)
   then print stderr ("Deleting existing RNNoise files at " +:+ Pathlib.str (path args));;
        rmtree (path args)
   else mret tt);;
  print stderr "Downloading the latest RNNoise release file from GitHub";;
  latest_release_json ← requests_get RELEASES_LATEST;
  match resolve_download_url (r_assets latest_release_json) with
  | None =>
      (* if download URL is not found *)
      print stderr
        "Error: failed to find Real-time Noise Suppression Plugin latest release download URL";;
      sys_exit 1
  | Some download_url =>
      rnnoise_tarfile_path ← download download_url (Some "/tmp/rnnoise.tar.gz") None 4096;
      print stderr ("Extracting downloaded archive to: " +:+ Pathlib.str (path args));;
      extractall rnnoise_tarfile_path (path args);;
      unlink rnnoise_tarfile_path;;
      print stderr ("RNNoise has been installed to: " +:+ Pathlib.str (path args))
  end.

Definition uninstall_action : M unit :=
  exists_ ← is_dir (path args);
  if (exists_ : bool)
  then
    (* disable RNNoise before removal *)
    disable_rnnoise;;
    print stdout ("Removing RNNoise directory: " +:+ Pathlib.str (path args));;
    rmtree (path args)
  else
    print stdout "Specified RNNoise directory not found";;
    sys_exit 1.

(** The [try] block of the enable action. *)
Definition enable_body : M unit :=
  enable_rnnoise;;
  if monitor args then enable_monitoring else mret tt.

(** [traceback.print_exc()] *)
Definition print_exc (e : exn) : M unit := emit (Traceback e).

Definition enable_action : M unit :=
  try_except_Exception enable_body (λ e, disable_rnnoise;; print_exc e).

Definition disable_action : M unit := disable_rnnoise.

(** The body of the script after the command line is parsed. *)
Definition script : M unit :=
  match action_ args with
  | install => install_action
  | uninstall => uninstall_action
  | enable => enable_action
  | disable => disable_action
  end.

(** Running the script as a process: its exit status and the world it leaves.
    An exception that reaches the top is printed by the interpreter, which
    exits with status 1; [SystemExit] gives its own code. *)
Definition run (w : World) : Z * World :=
  match script w with
  | (Returned _, w') => (0, w')
  | (Raised (SystemExit code), w') => (code, w')
  | (Raised e, w') => (1, with_trace w' (w_trace w' ++ [Traceback e]))
  end.

End Script.

(** ** What sink inspection reads, stated apart from the loop *)

Module Sinks.

Definition SOURCE : string := "Default source name: ".
Definition SINK : string := "Default sink name: ".

(** The standard output of the status query, were it called now: what the
    tool prints, and nothing when the tool cannot be executed. *)
Definition stat_stdout (w : World) : string :=
  if w_exec w PACMD then (w_tools w (calls (w_trace w)) [PACMD; "stat"]).2 else "".

Definition stat_lines (w : World) : list string :=
  Py.split Py.newline (stat_stdout w).

(** The lines that start with a prefix, in the order of the output. *)
Definition matching (pfx : string) (lines : list string) : list string :=
  filter (λ line, Py.startswith line pfx = true) lines.

Definition first_match (pfx : string) (lines : list string) : option string :=
  head (matching pfx lines).

Definition last_match (pfx : string) (lines : list string) : option string :=
  last (matching pfx lines).

(** What follows the prefix on a line, verbatim. *)
Definition verbatim (pfx line : string) : string :=
  Py.drop (String.length pfx) line.

(** What follows the prefix on a line, up to the first colon-and-space. *)
Definition value (pfx line : string) : string :=
  Py.before_first ": " (verbatim pfx line).

(** One line of the loop, as assignments to the two variables. *)
Definition assign (vars : option string * option string) (line : string)
    : option string * option string :=
  (if Py.startswith line SOURCE then Some (value SOURCE line) else vars.1,
   if Py.startswith line SINK then Some (value SINK line) else vars.2).

(** The world after the call of the status query. *)
Definition queried (w : World) : World :=
  with_trace w (w_trace w ++ [Run [PACMD; "stat"]]).

End Sinks.

(** ** Events of the two module sequences *)

(** A command is echoed to the diagnostics and then run. *)
Definition announce (command : list string) : list event :=
  [Print stderr (Shlex.join command); Run command].

Definition STAT : list string := [PACMD; "stat"].

(** The plugin binary is a file of the world. *)
Definition plugin_present (args : Args) (w : World) : bool :=
  Fs.is_file_at (w_fs w) (Fs.resolve (w_cwd w) (ladspa_file args)).

(** The install directory is a directory of the world. *)
Definition installed (args : Args) (w : World) : bool :=
  Fs.is_dir_at (w_fs w) (Fs.resolve (w_cwd w) (path args)).

(** What [enable_rnnoise] does up to and including the status query. *)
Definition enable_prologue : list event :=
  [Print stderr "Enabling RNNoise for PulseAudio";
   Print stderr "Loading PulseAudio module";
   Run STAT].

(** What a complete [enable_rnnoise] adds to the trace. *)
Definition enable_events (args : Args) (input_sink output_sink : string) : list event :=
  enable_prologue ++
  [Print stderr ("Found librnnoise_ladspa.so at: " +:+ Pathlib.str (ladspa_file args));
   Print stderr ("Found input sink: " +:+ input_sink);
   Print stderr ("Found output sink: " +:+ output_sink)] ++
  flat_map announce (enable_commands args input_sink).

(** What [disable_rnnoise] adds to the trace. *)
Definition disable_events : list event :=
  [Print stderr "Disabling RNNoise for PulseAudio";
   Print stderr "Unloading modules from PulseAudio"] ++
  flat_map announce disable_commands.

(** The program of a command line can be executed. *)
Definition runnable (w : World) (command : list string) : bool :=
  match command with
  | program :: _ => w_exec w program
  | [] => false
  end.

(** Every external command exits with status zero, whatever ran before. *)
Definition all_succeed (w : World) : Prop :=
  ∀ history command, (w_tools w history command).1 = 0.

(** What a computation adds to the trace of the world it starts in. *)
Definition added (w w' : World) (es : list event) : Prop :=
  w_trace w' = w_trace w ++ es.

(** ** What [download] reads from the answer it gets *)

Module Download.

(** The name of the file when no override is given: the one of the
    content-disposition header when it has one, else the last segment of the
    final URL. *)
Definition file_name (stream : response) : string :=
  match r_headers stream !! "content-disposition" ≫= disposition_file_name with
  | Some f => f
  | None => Py.last_item (Py.split "/" (r_url stream))
  end.

(** The size announced by the content-length header (zero without one);
    nothing when the header is no integer. *)
Definition total_size (int : string → option Z) (stream : response) : option Z :=
  match r_headers stream !! "content-length" with
  | Some n => int n
  | None => Some 0
  end.

(** The bytes written to the file. *)
Definition content (stream : response) : string :=
  String.concat "" (filter (λ chunk, chunk ≠ "") (r_chunks stream)).

(** The four lines of the summary. *)
Definition summary (url : string) (total chunk_size : Z) (output_file : Path)
    : list event :=
  [Print stdout ("Downloading: " +:+ url);
   Print stdout ("Total size: " +:+ Py.str_of_int total);
   Print stdout ("Chunk size: " +:+ Py.str_of_int chunk_size);
   Print stdout ("Saving to: " +:+ Pathlib.str output_file)].

Definition is_mkdir (e : event) : bool :=
  match e with
  | Mkdir _ => true
  | _ => false
  end.

End Download.

(** The assets whose name starts with the platform prefix. *)
Definition for_linux (assets : list asset) : list asset :=
  filter (λ a, Py.startswith (name a) "linux" = true) assets.

(** ** Sample worlds *)

Module Sample.

Definition lines (l : list string) : string :=
  String.concat "" ((λ s, s +:+ Py.newline) <$> l).

(** A status output with the two lines of interest among others. *)
Definition stat_output : string :=
  lines ["Memory blocks currently allocated: 3, size: 188.4 KiB.";
         "Default sample spec: s16le 2ch 44100Hz";
         "Default sink name: alsa_output.pci-0000_00_1f.3.analog-stereo";
         "Default source name: alsa_input.pci-0000_00_1f.3.analog-stereo";
         "Memory blocks used by type UNKNOWN: 0 allocated/0 accumulated."].

(** A status output that names two default sources. *)
Definition stat_two_sources : string :=
  lines ["Default source name: first";
         "Default source name: second";
         "Default sink name: out"].

(** A status output whose source name holds a colon and a space. *)
Definition stat_colon : string :=
  lines ["Default source name: usb: front mic";
         "Default sink name: out"].

Definition install_dir : loc := ["home"; "user"; ".local"; "share"; "rnnoise"].

Definition plugin : loc := install_dir ++ ["bin"; "ladspa"; "librnnoise_ladspa.so"].

(** The directories from the root down to [l]. *)
Definition dirs_to (l : loc) : gmap loc node :=
  list_to_map ((λ k, (take (S k) l, Dir)) <$> seq 0 (length l)).

(** An install directory with nothing in it. *)
Definition fs_bare : gmap loc node :=
  <[ ["tmp"] := Dir ]> (dirs_to install_dir).

(** An install directory with the plugin binary. *)
Definition fs_installed : gmap loc node :=
  <[ plugin := File "ELF" ]> (dirs_to (Fs.parent plugin) ∪ fs_bare).

(** No install directory. *)
Definition fs_fresh : gmap loc node :=
  <[ ["tmp"] := Dir ]> (dirs_to ["home"; "user"]).

Definition listing : list asset :=
  [ {| name := "linux-x86_64.tar.gz"; browser_download_url := "https://x/y" |} ].

Definition headers_named : gmap string string :=
  {[ "content-disposition" := "attachment; filename=plugin.tar.gz";
     "content-length" := "7" ]}.

Definition network (url : string) : response :=
  {| r_url := url; r_headers := headers_named; r_chunks := ["abc"; ""; "defg"];
     r_assets := listing |}.

Definition unquote (s : string) : string := s.
Definition int (s : string) : option Z :=
  if bool_decide (s = "7") then Some 7 else None.
Definition tar_extractall (bytes : string) (dest : loc) (fs : gmap loc node)
    : option (gmap loc node) := Some fs.

Definition world (fs : gmap loc node)
    (tools : list (list string) → list string → Z * string) : World :=
  {| w_fs := fs; w_cwd := ["home"; "user"]; w_exec := λ _, true; w_tools := tools;
     w_http := network; w_trace := [] |}.

(** The tools when the sound server runs and obeys. *)
Definition obey (out : string) (history : list (list string)) (command : list string)
    : Z * string :=
  if bool_decide (command = STAT) then (0, out) else (0, "").

(** The tools when the sound server refuses to load a loopback. *)
Definition no_loopback (history : list (list string)) (command : list string)
    : Z * string :=
  if bool_decide (command = STAT) then (0, stat_output)
  else if bool_decide (command !! 2%nat = Some "module-loopback") then (1, "")
  else (0, "").

(** The tools when no sound server runs: nothing is printed. *)
Definition no_server (history : list (list string)) (command : list string)
    : Z * string := (1, "").

(** The tools print nothing but exit with status zero. *)
Definition mute (history : list (list string)) (command : list string)
    : Z * string := (0, "").

Definition args_of (a : action) (m : bool) : Args :=
  {| action_ := a; path := Pathlib.of_str "/home/user/.local/share/rnnoise";
     monitor := m |}.

Definition w_ready : World := world fs_installed (obey stat_output).
Definition w_no_plugin : World := world fs_bare (obey stat_output).
Definition w_no_server : World := world fs_bare no_server.
Definition w_no_loopback : World := world fs_installed no_loopback.
Definition w_two_sources : World := world fs_installed (obey stat_two_sources).
Definition w_colon : World := world fs_installed (obey stat_colon).
Definition w_fresh : World := world fs_fresh (obey stat_output).

(** A release with no asset for the platform. *)
Definition listing_other : list asset :=
  [ {| name := "win-rnnoise.zip"; browser_download_url := "https://x/z" |} ].

Definition w_no_asset : World :=
  {| w_fs := fs_fresh; w_cwd := ["home"; "user"]; w_exec := λ _, true;
     w_tools := obey stat_output;
     w_http := λ url, {| r_url := url; r_headers := ∅; r_chunks := [];
                         r_assets := listing_other |};
     w_trace := [] |}.

End Sample.

(** The script run with the sample library functions. *)
Abbreviation sample_run := (run Sample.unquote Sample.int Sample.tar_extractall).

(** The enable action finds both sink names and then no plugin binary. *)
Definition plugin_missed (args : Args) (w : World) : bool :=
  match (get_default_sinks w).1 with
  | Returned _ => negb (plugin_present args w)
  | Raised _ => false
  end.

(** ** The install action, step by step *)

Module Install.

(** Where the install action puts the archive. *)
Definition archive : loc := ["tmp"; "rnnoise.tar.gz"].

(** The install directory, as a location. *)
Definition dest (args : Args) (w : World) : loc :=
  Fs.resolve (w_cwd w) (path args).

(** The file system once an existing install directory is deleted. *)
Definition cleared (args : Args) (w : World) : gmap loc node :=
  if installed args w then Fs.remove_tree (w_fs w) (dest args w) else w_fs w.

(** The events up to the request for the listing. *)
Definition opening (args : Args) (w : World) : list event :=
  (if installed args w
   then [Print stderr ("Deleting existing RNNoise files at " +:+
                       Pathlib.str (path args));
         Rmtree (dest args w)]
   else []) ++
  [Print stderr "Downloading the latest RNNoise release file from GitHub";
   Get RELEASES_LATEST].

(** The events of the download of the archive. *)
Definition fetching (url : string) (total : Z) (bytes : string) : list event :=
  [Get url] ++
  Download.summary url total 4096 (Pathlib.of_str "/tmp/rnnoise.tar.gz") ++
  [Write_ archive bytes].

End Install.

(** ** More sample worlds *)

Module More.

(** A status output that names a default sink only. *)
Definition stat_sink_only : string :=
  Sample.lines ["Default sink name: out"].

(** A status output that names a default source only. *)
Definition stat_source_only : string :=
  Sample.lines ["Default source name: in"].

Definition w_sink_only : World := Sample.world Sample.fs_installed (Sample.obey stat_sink_only).
Definition w_source_only : World :=
  Sample.world Sample.fs_installed (Sample.obey stat_source_only).

(** The sound server names another default sink once the modules are
    loaded: the answer to the status query depends on what ran before. *)
Definition shifting (history : list (list string)) (command : list string)
    : Z * string :=
  if bool_decide (command = STAT)
  then (0, if bool_decide (history = [])
           then Sample.lines ["Default source name: mic"; "Default sink name: speakers"]
           else Sample.lines ["Default source name: denoised";
                              "Default sink name: headphones"])
  else (0, "").

Definition w_shifting : World := Sample.world Sample.fs_installed shifting.

(** Every module command fails; the status query answers. *)
Definition refusing (history : list (list string)) (command : list string)
    : Z * string :=
  if bool_decide (command = STAT) then (0, Sample.stat_output) else (1, "").

Definition w_refusing : World := Sample.world Sample.fs_installed refusing.

(** An installation in place and a release with no asset for the platform. *)
Definition w_old_install : World :=
  {| w_fs := Sample.fs_installed; w_cwd := ["home"; "user"]; w_exec := λ _, true;
     w_tools := Sample.obey Sample.stat_output;
     w_http := λ url, {| r_url := url; r_headers := ∅; r_chunks := [];
                         r_assets := Sample.listing_other |};
     w_trace := [] |}.

(** An archive that cannot be read. *)
Definition unreadable (bytes : string) (dest : loc) (fs : gmap loc node)
    : option (gmap loc node) := None.

(** An archive with the plugin binary in it. *)
Definition unpack (bytes : string) (dest : loc) (fs : gmap loc node)
    : option (gmap loc node) :=
  Some (<[dest ++ ["bin"; "ladspa"; "librnnoise_ladspa.so"] := File "ELF"]>
          (<[dest ++ ["bin"; "ladspa"] := Dir]>
             (<[dest ++ ["bin"] := Dir]> (<[dest := Dir]> fs)))).

(** An answer whose header names a file by an absolute path, and whose
    content-length is filled in or not a number. *)
Definition answer (disposition length_ : string) (url : string) : response :=
  {| r_url := url;
     r_headers := {[ "content-disposition" := disposition;
                     "content-length" := length_ ]};
     r_chunks := ["abc"; ""; "defg"];
     r_assets := [] |}.

Definition w_answer (disposition length_ : string) : World :=
  {| w_fs := Sample.fs_fresh; w_cwd := ["home"; "user"]; w_exec := λ _, true;
     w_tools := Sample.obey Sample.stat_output;
     w_http := answer disposition length_;
     w_trace := [] |}.

(** A machine on which a program cannot be executed. *)
Definition without (program : string) (w : World) : World :=
  {| w_fs := w_fs w; w_cwd := w_cwd w;
     w_exec := λ p, if bool_decide (p = program) then false else w_exec w p;
     w_tools := w_tools w; w_http := w_http w; w_trace := w_trace w |}.

(** No [pactl]: an installation in place, and a sound server that refuses
    the loopback. *)
Definition w_no_pactl : World := without PACTL Sample.w_no_loopback.

(** No [pactl]: an installation in place, and a sound server that obeys. *)
Definition w_ready_no_pactl : World := without PACTL Sample.w_ready.

(** Neither of the two tools. *)
Definition w_no_tools : World := without PACMD (without PACTL Sample.w_ready).

(** A status output in which a source line with a colon in its value is
    followed by another source line. *)
Definition stat_colon_then_plain : string :=
  Sample.lines ["Default source name: usb: front mic";
                "Default source name: plain";
                "Default sink name: out"].

(** A status output that is one source line with a colon in its value. *)
Definition stat_colon_alone : string :=
  Sample.lines ["Default source name: usb: front mic"].

Definition w_colon_then_plain : World :=
  Sample.world Sample.fs_installed (Sample.obey stat_colon_then_plain).
Definition w_colon_alone : World :=
  Sample.world Sample.fs_installed (Sample.obey stat_colon_alone).

End More.

(** * Facts about the string functions *)

Section StringFacts.

#[local] Arguments String.append !_ _ / : simpl nomatch.

Lemma prefix_drop (p s : string) :
  String.prefix p s = true → s = p +:+ Py.drop (String.length p) s.
Proof.
  revert s. induction p as [|a p IH]; intros s H; [done|].
  destruct s as [|b s]; simpl in H; [done|].
  destruct (ascii_dec a b) as [->|]; [|done].
  simpl. f_equal. by apply IH.
Qed.

Lemma prefix_append (p s : string) : String.prefix p (p +:+ s) = true.
Proof.
  induction p as [|a p IH]; simpl; [by destruct s|].
  by destruct (ascii_dec a a).
Qed.

Lemma append_length (s t : string) :
  String.length (s +:+ t) = (String.length s + String.length t)%nat.
Proof. induction s; simpl; congruence. Qed.

Lemma append_assoc (s t u : string) : (s +:+ t) +:+ u = s +:+ t +:+ u.
Proof. induction s; simpl; congruence. Qed.

Lemma split_go_head (sep s : string) :
  ∃ rest, Py.split_go sep 0 s = Py.before_first sep s :: rest.
Proof.
  induction s as [|c s [rest IH]]; [by eexists|].
  cbn [Py.split_go Py.before_first].
  destruct (String.prefix sep (String c s)); [by eexists|].
  rewrite IH. by eexists.
Qed.

Lemma prefix_nil (s : string) : String.prefix "" s = true.
Proof. by destruct s. Qed.

(** After a separator is found, its remaining characters are dropped. *)
Lemma split_go_skip (sep x s : string) :
  Py.split_go sep (String.length x) (x +:+ s) = Py.split_go sep 0 s.
Proof. induction x as [|c x IH]; [done|]. simpl. exact IH. Qed.

Lemma split_go_sep (sep s : string) :
  sep ≠ "" → Py.split_go sep 0 (sep +:+ s) = "" :: Py.split_go sep 0 s.
Proof.
  destruct sep as [|c sep]; [done|]. intros _.
  change (String c sep +:+ s) with (String c (sep +:+ s)).
  cbn [Py.split_go].
  change (String c (sep +:+ s)) with (String c sep +:+ s).
  rewrite prefix_append. cbn [String.length Nat.pred].
  by rewrite split_go_skip.
Qed.

(** A text in which the first character of the separator does not occur
    goes to the head segment as it is. *)
Lemma split_go_plain (c0 : ascii) (sep' p s : string) :
  Py.has_char c0 p = false →
  ∃ seg rest, Py.split_go (String c0 sep') 0 s = seg :: rest ∧
    Py.split_go (String c0 sep') 0 (p +:+ s) = (p +:+ seg) :: rest.
Proof.
  intros Hp. destruct (split_go_head (String c0 sep') s) as [rest Hs].
  exists (Py.before_first (String c0 sep') s), rest. split; [done|].
  induction p as [|c p IH]; [done|].
  simpl in Hp. apply orb_false_elim in Hp as [Hc Hp].
  simpl. destruct (ascii_dec c0 c) as [->|_].
  - by rewrite Ascii.eqb_refl in Hc.
  - by rewrite IH.
Qed.

Lemma before_first_cut (sep v : string) :
  Py.contains sep v → ∃ rest, v = Py.before_first sep v +:+ sep +:+ rest.
Proof.
  intros (a & b & ->). induction a as [|c a [rest IH]].
  - destruct (sep +:+ b) as [|c v] eqn:E; [|rewrite <- E].
    + destruct sep; [|done]. simpl in E; subst. by exists "".
    + exists b. destruct sep as [|c' sep]; [by destruct b|].
      cbn [String.append Py.before_first].
      change (String c' (sep +:+ b)) with (String c' sep +:+ b).
      by rewrite prefix_append.
  - cbn [String.append Py.before_first].
    destruct (String.prefix sep _) eqn:E.
    + apply prefix_drop in E. eexists. simpl. exact E.
    + exists rest. simpl. by rewrite <- IH.
Qed.

Lemma before_first_truncates (sep v : string) :
  sep ≠ "" → Py.contains sep v → Py.before_first sep v ≠ v.
Proof.
  intros Hsep [rest Hcut]%before_first_cut E.
  apply (f_equal String.length) in Hcut.
  rewrite E, !append_length in Hcut.
  destruct sep; [done|]. simpl in Hcut. lia.
Qed.

End StringFacts.

(** * Facts about the monad and the trace *)

Ltac munfold :=
  unfold mbind, M_bind, bind, mret, M_ret, ret, raise, sys_exit, print, print_exc,
    emit in *.

Lemma pair_fst_eq {A B} (p : A * B) (a : A) : p.1 = a → p = (a, p.2).
Proof. destruct p. by intros <-. Qed.

Lemma calls_app (t u : list event) : calls (t ++ u) = calls t ++ calls u.
Proof. apply omap_app. Qed.

Lemma with_trace_trace w t : w_trace (with_trace w t) = t.
Proof. done. Qed.

Lemma with_trace_twice w t u : with_trace (with_trace w t) u = with_trace w u.
Proof. done. Qed.

Lemma with_trace_tools w t : w_tools (with_trace w t) = w_tools w.
Proof. done. Qed.

Lemma with_trace_fs w t : w_fs (with_trace w t) = w_fs w.
Proof. done. Qed.

Lemma with_trace_cwd w t : w_cwd (with_trace w t) = w_cwd w.
Proof. done. Qed.

Lemma with_trace_http w t : w_http (with_trace w t) = w_http w.
Proof. done. Qed.

Lemma with_fs_trace w fs : w_trace (with_fs w fs) = w_trace w.
Proof. done. Qed.

Lemma with_fs_fs w fs : w_fs (with_fs w fs) = fs.
Proof. done. Qed.

Lemma with_fs_cwd w fs : w_cwd (with_fs w fs) = w_cwd w.
Proof. done. Qed.

Lemma with_fs_tools w fs : w_tools (with_fs w fs) = w_tools w.
Proof. done. Qed.

Lemma with_fs_http w fs : w_http (with_fs w fs) = w_http w.
Proof. done. Qed.

Lemma with_trace_exec w t : w_exec (with_trace w t) = w_exec w.
Proof. done. Qed.

Lemma with_fs_exec w fs : w_exec (with_fs w fs) = w_exec w.
Proof. done. Qed.

Lemma with_trace_runnable w t command :
  runnable (with_trace w t) command = runnable w command.
Proof. by destruct command. Qed.

Lemma with_trace_same w : with_trace w (w_trace w) = w.
Proof. by destruct w. Qed.

Lemma with_trace_eq w t u : t = u → with_trace w t = with_trace w u.
Proof. by intros ->. Qed.

Create Rewrite HintDb world.
#[global] Hint Rewrite with_trace_trace with_trace_twice with_trace_tools
  with_trace_fs with_trace_cwd with_trace_http with_fs_trace with_fs_fs
  with_fs_cwd with_fs_tools with_fs_http with_trace_exec with_fs_exec
  with_trace_runnable : world.

(** Bring worlds to the form [with_trace w (w_trace w ++ events)]. *)
Ltac wnorm := autorewrite with world; rewrite <- ?app_assoc; cbn [app].

Lemma calls_traceback (t : list event) (e : exn) :
  calls (t ++ [Traceback e]) = calls t.
Proof. rewrite calls_app. apply app_nil_r. Qed.

Lemma calls_announce (commands : list (list string)) :
  calls (flat_map announce commands) = commands.
Proof. induction commands as [|c l IH]; [done|]. cbn. by f_equal. Qed.

(** * Sink inspection *)

Section SinkFacts.

#[local] Arguments String.append !_ _ / : simpl nomatch.

Lemma split_prefixed_line (key v : string) :
  Py.has_char ":" key = false →
  Py.split ": " (key +:+ ": " +:+ v) !! 1%nat = Some (Py.before_first ": " v).
Proof.
  intros Hkey. unfold Py.split.
  destruct (split_go_plain ":" " " key (": " +:+ v) Hkey) as (seg & rest & Hs & ->).
  rewrite split_go_sep in Hs by done.
  destruct (split_go_head ": " v) as [rest' Hv]. rewrite Hv in Hs.
  by simplify_eq.
Qed.

Lemma split_source_line (line : string) :
  Py.startswith line Sinks.SOURCE = true →
  Py.split ": " line !! 1%nat = Some (Sinks.value Sinks.SOURCE line).
Proof.
  intros H%prefix_drop. unfold Sinks.value, Sinks.verbatim.
  set (v := Py.drop _ line) in *. clearbody v. subst line.
  by apply (split_prefixed_line "Default source name").
Qed.

Lemma split_sink_line (line : string) :
  Py.startswith line Sinks.SINK = true →
  Py.split ": " line !! 1%nat = Some (Sinks.value Sinks.SINK line).
Proof.
  intros H%prefix_drop. unfold Sinks.value, Sinks.verbatim.
  set (v := Py.drop _ line) in *. clearbody v. subst line.
  by apply (split_prefixed_line "Default sink name").
Qed.

(** The body of the loop never raises and leaves the world alone. *)
Lemma sinks_of_line_assign vars line w :
  sinks_of_line vars line w = (Returned (Sinks.assign vars line), w).
Proof.
  unfold sinks_of_line, Sinks.assign, item. munfold.
  change "Default source name: " with Sinks.SOURCE.
  change "Default sink name: " with Sinks.SINK.
  destruct (Py.startswith line Sinks.SOURCE) eqn:E1;
    destruct (Py.startswith line Sinks.SINK) eqn:E2.
  - apply prefix_drop in E1, E2. rewrite E1 in E2. simpl in E2. discriminate E2.
  - by rewrite (split_source_line _ E1).
  - by rewrite (split_sink_line _ E2).
  - done.
Qed.

Lemma for_fold_sinks lines vars w :
  for_fold lines sinks_of_line vars w = (Returned (foldl Sinks.assign vars lines), w).
Proof.
  revert vars. induction lines as [|line lines IH]; intros vars; [done|].
  cbn [for_fold foldl]. munfold. by rewrite sinks_of_line_assign, IH.
Qed.

Lemma foldl_assign_last lines vars :
  foldl Sinks.assign vars lines =
    (from_option (λ l, Some (Sinks.value Sinks.SOURCE l)) vars.1
       (Sinks.last_match Sinks.SOURCE lines),
     from_option (λ l, Some (Sinks.value Sinks.SINK l)) vars.2
       (Sinks.last_match Sinks.SINK lines)).
Proof.
  induction lines as [|line lines IH] using rev_ind; [by destruct vars|].
  rewrite foldl_app. cbn [foldl]. rewrite IH. clear IH.
  unfold Sinks.assign, Sinks.last_match, Sinks.matching. rewrite !filter_app.
  cbn [fst snd]. rewrite !filter_cons, !filter_nil.
  destruct (Py.startswith line Sinks.SOURCE) eqn:E1;
    destruct (Py.startswith line Sinks.SINK) eqn:E2;
    repeat case_decide; try done; rewrite ?last_snoc, ?app_nil_r; done.
Qed.

(** A tool that cannot be executed prints nothing. *)
Lemma stat_lines_absent w :
  w_exec w PACMD = false → Sinks.stat_lines w = [""].
Proof. intros H. unfold Sinks.stat_lines, Sinks.stat_stdout. by rewrite H. Qed.

Lemma stat_lines_present w :
  w_exec w PACMD = true →
  Sinks.stat_lines w = Py.split Py.newline (w_tools w (calls (w_trace w)) [PACMD; "stat"]).2.
Proof. intros H. unfold Sinks.stat_lines, Sinks.stat_stdout. by rewrite H. Qed.

(** A line of the status output with one of the prefixes: the tool ran. *)
Lemma stat_lines_exec w line pfx :
  line ∈ Sinks.stat_lines w → pfx ≠ "" → Py.startswith line pfx = true →
  w_exec w PACMD = true.
Proof.
  intros Hin Hpfx Hline. destruct (w_exec w PACMD) eqn:E; [done|].
  rewrite (stat_lines_absent w E) in Hin. apply list_elem_of_singleton in Hin.
  subst line. by destruct pfx.
Qed.

Lemma last_match_exec w pfx line :
  Sinks.last_match pfx (Sinks.stat_lines w) = Some line → pfx ≠ "" →
  w_exec w PACMD = true.
Proof.
  intros Hlast Hpfx. apply last_Some_elem_of in Hlast.
  apply list_elem_of_filter in Hlast as [Hline Hin].
  by apply (stat_lines_exec w line pfx).
Qed.

(** Sink inspection in full: one call of the status query, which raises
    when the tool cannot be executed; then the last line of each prefix
    decides; a prefix with no line leaves its variable unbound. *)
Lemma get_default_sinks_run w :
  get_default_sinks w =
    if w_exec w PACMD
    then
      match Sinks.last_match Sinks.SOURCE (Sinks.stat_lines w),
            Sinks.last_match Sinks.SINK (Sinks.stat_lines w) with
      | Some ls, Some lk =>
          (Returned (Sinks.value Sinks.SOURCE ls, Sinks.value Sinks.SINK lk),
           Sinks.queried w)
      | None, _ => (Raised (UnboundLocalError "input_sink"), Sinks.queried w)
      | Some _, None => (Raised (UnboundLocalError "output_sink"), Sinks.queried w)
      end
    else (Raised OSError, Sinks.queried w).
Proof.
  unfold get_default_sinks, subprocess_run. munfold.
  destruct (w_exec w PACMD) eqn:E; [|done].
  cbn [andb]. rewrite for_fold_sinks, foldl_assign_last. cbn [fst snd].
  rewrite <- (stat_lines_present w E). fold (Sinks.queried w).
  by destruct (Sinks.last_match Sinks.SOURCE (Sinks.stat_lines w)),
    (Sinks.last_match Sinks.SINK (Sinks.stat_lines w)).
Qed.

(** Names are returned only when the tool could be executed. *)
Lemma get_default_sinks_exec w sinks :
  (get_default_sinks w).1 = Returned sinks → w_exec w PACMD = true.
Proof. rewrite get_default_sinks_run. by destruct (w_exec w PACMD). Qed.

End SinkFacts.

(** * The two module sequences *)

Section ModuleFacts.

(** Unloading: four commands, whatever they answer, when the tool can be
    executed. *)
Lemma disable_rnnoise_run w :
  w_exec w PACTL = true →
  disable_rnnoise w = (Returned tt, with_trace w (w_trace w ++ disable_events)).
Proof.
  intros E. unfold disable_rnnoise, disable_commands, subprocess_run.
  cbn [for_in]. munfold.
  repeat (autorewrite with world; rewrite E; cbn [andb]; cbv iota).
  by wnorm.
Qed.

(** Unloading when the tool cannot be executed: the first call raises. *)
Lemma disable_rnnoise_absent w :
  w_exec w PACTL = false →
  disable_rnnoise w =
    (Raised OSError,
     with_trace w (w_trace w ++
       [Print stderr "Disabling RNNoise for PulseAudio";
        Print stderr "Unloading modules from PulseAudio"] ++
       announce [PACTL; "unload-module"; "module-loopback"])).
Proof.
  intros E. unfold disable_rnnoise, disable_commands, subprocess_run.
  cbn [for_in]. munfold. autorewrite with world. rewrite E. by wnorm.
Qed.

(** In every case unloading only adds to the trace. *)
Lemma disable_rnnoise_adds w :
  ∃ r es, disable_rnnoise w = (r, with_trace w (w_trace w ++ es)) ∧
          calls es = take (length (calls es)) disable_commands.
Proof.
  destruct (w_exec w PACTL) eqn:E.
  - rewrite (disable_rnnoise_run w E). by eexists _, _.
  - rewrite (disable_rnnoise_absent w E). by eexists _, _.
Qed.

Lemma stat_lines_silent w es :
  calls es = [] → Sinks.stat_lines (with_trace w (w_trace w ++ es)) = Sinks.stat_lines w.
Proof.
  intros H. unfold Sinks.stat_lines, Sinks.stat_stdout.
  autorewrite with world. by rewrite calls_app, H, app_nil_r.
Qed.

(** Events that are no commands do not change what sink inspection finds. *)
Lemma get_default_sinks_silent w es :
  calls es = [] →
  get_default_sinks (with_trace w (w_trace w ++ es)) =
    ((get_default_sinks w).1, with_trace w (w_trace w ++ es ++ [Run STAT])).
Proof.
  intros H. rewrite (get_default_sinks_run w).
  rewrite (get_default_sinks_run (with_trace _ _)).
  rewrite (stat_lines_silent w es H).
  unfold Sinks.queried. wnorm.
  by destruct (w_exec w PACMD),
    (Sinks.last_match Sinks.SOURCE (Sinks.stat_lines w)),
    (Sinks.last_match Sinks.SINK (Sinks.stat_lines w)).
Qed.

Lemma get_default_sinks_world w :
  (get_default_sinks w).2 = Sinks.queried w.
Proof.
  rewrite get_default_sinks_run.
  by destruct (w_exec w PACMD),
    (Sinks.last_match Sinks.SOURCE (Sinks.stat_lines w)),
    (Sinks.last_match Sinks.SINK (Sinks.stat_lines w)).
Qed.

(** A failed sink inspection ends [enable_rnnoise] right after the query. *)
Lemma enable_rnnoise_unbound args w e :
  (get_default_sinks w).1 = Raised e →
  enable_rnnoise args w = (Raised e, with_trace w (w_trace w ++ enable_prologue)).
Proof.
  intros H. unfold enable_rnnoise. munfold. wnorm.
  rewrite (get_default_sinks_silent w [_; _]) by done. by rewrite H.
Qed.

(** A missing plugin binary ends [enable_rnnoise] after the query, with
    [SystemExit]. *)
Lemma enable_rnnoise_missing args w sinks :
  (get_default_sinks w).1 = Returned sinks →
  plugin_present args w = false →
  enable_rnnoise args w =
    (Raised (SystemExit 1),
     with_trace w (w_trace w ++ enable_prologue ++
                   [Print stderr "librnnoise_ladspa.so not found"])).
Proof.
  intros H Hp. unfold enable_rnnoise, is_file. munfold. wnorm.
  rewrite (get_default_sinks_silent w [_; _]) by done. rewrite H. wnorm.
  unfold plugin_present in Hp. rewrite Hp. by wnorm.
Qed.

(** The loop of [enable_rnnoise] over a list of commands. *)
Abbreviation checked_loop commands :=
  (for_in commands (λ command : list string,
     print stderr (Shlex.join command);;
     subprocess_run command true;;
     mret tt)).

Lemma for_in_cons {A} (x : A) xs body w :
  for_in (x :: xs) body w =
    match body x w with
    | (Returned _, w') => for_in xs body w'
    | (Raised e, w') => (Raised e, w')
    end.
Proof. done. Qed.

(** One round of the loop, for a command whose program can be executed:
    the echo, then the command, checked. *)
Lemma checked_step command w :
  runnable w command = true →
  (print stderr (Shlex.join command);; subprocess_run command true;; mret tt) w =
    let rc := (w_tools w (calls (w_trace w)) command).1 in
    (if negb (rc =? 0) then Raised (CalledProcessError rc command) else Returned tt,
     with_trace w (w_trace w ++ announce command)).
Proof.
  destruct command as [|program rest]; [done|]. cbn [runnable]. intros E.
  unfold subprocess_run. munfold. autorewrite with world. rewrite E.
  wnorm. cbn [andb calls omap app].
  rewrite calls_app. cbn [calls omap]. rewrite app_nil_r.
  by destruct (negb _).
Qed.

(** One round of the loop, for any command: it returns, or raises an
    [Exception]; the call is made in both cases. *)
Lemma checked_step_any command w :
  ∃ r, (print stderr (Shlex.join command);; subprocess_run command true;; mret tt) w =
         (r, with_trace w (w_trace w ++ announce command)) ∧
       (r = Returned tt ∨ ∃ e, r = Raised e ∧ is_Exception e = true).
Proof.
  destruct (runnable w command) eqn:E.
  - rewrite (checked_step _ _ E). cbv zeta.
    destruct (negb _); eexists; (split; [done|]); [right|left]; by eauto.
  - exists (Raised (if command is [] then IndexError else OSError)).
    split; [|right; eexists; split; [done|by destruct command]].
    unfold subprocess_run. munfold. autorewrite with world.
    destruct command as [|program rest]; [by wnorm|].
    cbn [runnable] in E. rewrite E. by wnorm.
Qed.

Lemma checked_loop_ok commands w :
  (∀ c, c ∈ commands → runnable w c = true) →
  all_succeed w →
  checked_loop commands w =
    (Returned tt, with_trace w (w_trace w ++ flat_map announce commands)).
Proof.
  intros Hrun Hok. revert w Hrun Hok.
  induction commands as [|c commands IH]; intros w Hrun Hok.
  - cbn. by rewrite app_nil_r, with_trace_same.
  - rewrite for_in_cons. cbv beta. rewrite checked_step by (apply Hrun; left).
    cbv zeta. rewrite Hok. cbn [Z.eqb negb].
    rewrite IH; [cbn [flat_map]; by wnorm | | done].
    intros c' Hc'. rewrite with_trace_runnable. apply Hrun. by right.
Qed.

(** Whatever the commands answer, the loop runs them in the order of the
    list and stops at the first that fails. *)
Lemma checked_loop_prefix commands w :
  ∃ k r, checked_loop commands w =
    (r, with_trace w (w_trace w ++ flat_map announce (take k commands))).
Proof.
  revert w. induction commands as [|c commands IH]; intros w.
  - exists 0%nat, (Returned tt). cbn. by rewrite app_nil_r, with_trace_same.
  - rewrite for_in_cons. cbv beta.
    destruct (checked_step_any c w) as (r & -> & [-> | (e & -> & _)]).
    + match goal with |- context [for_in commands _ ?w1] =>
        destruct (IH w1) as (k & r & ->) end.
      exists (S k), r. cbn [take flat_map]. by wnorm.
    + exists 1%nat. eexists. cbn [take flat_map]. by rewrite app_nil_r.
Qed.

(** The commands of [enable_rnnoise] are all calls of [pacmd]. *)
Lemma enable_commands_runnable args i w c :
  w_exec w PACMD = true → c ∈ enable_commands args i → runnable w c = true.
Proof.
  intros E Hin. unfold enable_commands in Hin.
  repeat (apply elem_of_cons in Hin as [->|Hin]; [exact E|]).
  by apply not_elem_of_nil in Hin.
Qed.

(** With the plugin in place and both names found, [enable_rnnoise] reaches
    its loop. *)
Lemma enable_rnnoise_loop args w i o :
  (get_default_sinks w).1 = Returned (i, o) →
  plugin_present args w = true →
  enable_rnnoise args w =
    checked_loop (enable_commands args i)
      (with_trace w (w_trace w ++ enable_prologue ++
         [Print stderr ("Found librnnoise_ladspa.so at: " +:+ Pathlib.str (ladspa_file args));
          Print stderr ("Found input sink: " +:+ i);
          Print stderr ("Found output sink: " +:+ o)])).
Proof.
  intros H Hp. unfold enable_rnnoise, is_file. munfold. wnorm.
  rewrite (get_default_sinks_silent w [_; _]) by done. rewrite H. wnorm.
  unfold plugin_present in Hp. rewrite Hp. cbn [fst snd]. by wnorm.
Qed.

Lemma enable_rnnoise_ok args w i o :
  (get_default_sinks w).1 = Returned (i, o) →
  plugin_present args w = true →
  all_succeed w →
  enable_rnnoise args w =
    (Returned tt, with_trace w (w_trace w ++ enable_events args i o)).
Proof.
  intros H Hp Hok. rewrite (enable_rnnoise_loop _ _ _ _ H Hp).
  rewrite checked_loop_ok; [unfold enable_events; by wnorm | | done].
  intros c Hc. rewrite with_trace_runnable.
  eapply enable_commands_runnable; [|exact Hc]. by eapply get_default_sinks_exec.
Qed.

(** In every run, what [enable_rnnoise] adds to the trace starts with the
    status query, and the commands after it are the first few of the five,
    in their order. *)
Lemma enable_rnnoise_added args w :
  ∃ es, added w (enable_rnnoise args w).2 (enable_prologue ++ es) ∧
        ∃ k i, calls es = take k (enable_commands args i).
Proof.
  destruct (get_default_sinks w).1 as [[i o]|e] eqn:H.
  - destruct (plugin_present args w) eqn:Hp.
    + rewrite (enable_rnnoise_loop _ _ _ _ H Hp).
      match goal with |- context [for_in ?c _ ?w1] =>
        destruct (checked_loop_prefix c w1) as (k & r & ->) end.
      eexists. split.
      * unfold added. cbn [snd]. by wnorm.
      * exists k, i. unfold calls. cbn [omap]. apply calls_announce.
    + rewrite (enable_rnnoise_missing _ _ _ H Hp). eexists. split; [done|].
      by exists 0%nat, "".
  - rewrite (enable_rnnoise_unbound _ _ _ H). exists []. split.
    + unfold added. by rewrite app_nil_r.
    + by exists 0%nat, "".
Qed.

End ModuleFacts.

(** * The enable action *)

Section EnableFacts.

Lemma div_component (p : Path) (s : string) :
  Pathlib.of_str s = {| Pathlib.root := ""; Pathlib.parts := [s] |} →
  p </> s = {| Pathlib.root := Pathlib.root p; Pathlib.parts := Pathlib.parts p ++ [s] |}.
Proof. intros H. unfold Pathlib.div. by rewrite H. Qed.

(** The plugin binary lies three components under the install directory. *)
Lemma ladspa_file_under (args : Args) :
  ladspa_file args =
    {| Pathlib.root := Pathlib.root (path args);
       Pathlib.parts := Pathlib.parts (path args) ++
                          ["bin"; "ladspa"; "librnnoise_ladspa.so"] |}.
Proof.
  unfold ladspa_file.
  rewrite (div_component _ "bin"), (div_component _ "ladspa"),
    (div_component _ "librnnoise_ladspa.so") by (by vm_compute).
  cbn. by rewrite <- !app_assoc.
Qed.

Lemma enable_monitoring_run w :
  enable_monitoring w =
    match (get_default_sinks w).1 with
    | Returned sinks =>
        (Returned tt,
         with_trace w (w_trace w ++
           [Print stderr "Enabling monitoring on denoised input"; Run STAT] ++
           announce (monitor_command sinks.2)))
    | Raised e =>
        (Raised e,
         with_trace w (w_trace w ++
           [Print stderr "Enabling monitoring on denoised input"; Run STAT]))
    end.
Proof.
  unfold enable_monitoring, subprocess_run. munfold. wnorm.
  rewrite (get_default_sinks_silent w [_]) by done.
  destruct (get_default_sinks w).1 as [sinks|e] eqn:Hs; [|done].
  apply get_default_sinks_exec in Hs. unfold monitor_command.
  autorewrite with world. rewrite Hs. cbn [andb]. by wnorm.
Qed.

(** The handler of the enable action when [pactl] can be executed: the four
    unloads, then the trace of the error; it returns. *)
Lemma enable_handler_run e w :
  w_exec w PACTL = true →
  (disable_rnnoise;; print_exc e) w =
    (Returned tt, with_trace w (w_trace w ++ disable_events ++ [Traceback e])).
Proof. intros E. munfold. rewrite (disable_rnnoise_run w E). by wnorm. Qed.

(** The handler when [pactl] cannot be executed: the first unload raises,
    and the trace of the first error is not printed. *)
Lemma enable_handler_absent e w :
  w_exec w PACTL = false →
  (disable_rnnoise;; print_exc e) w =
    (Raised OSError,
     with_trace w (w_trace w ++
       [Print stderr "Disabling RNNoise for PulseAudio";
        Print stderr "Unloading modules from PulseAudio"] ++
       announce [PACTL; "unload-module"; "module-loopback"])).
Proof. intros E. munfold. by rewrite (disable_rnnoise_absent w E). Qed.

(** The enable action when its [try] block raises: an [Exception] goes to
    the handler, anything else goes on. *)
Lemma enable_action_raised args w e w1 :
  enable_body args w = (Raised e, w1) →
  enable_action args w =
    if is_Exception e then (disable_rnnoise;; print_exc e) w1 else (Raised e, w1).
Proof.
  intros H. unfold enable_action, try_except_Exception. by rewrite H.
Qed.

(** The same, when [pactl] can be executed once the handler is reached. *)
Lemma enable_action_handled args w e w1 :
  enable_body args w = (Raised e, w1) →
  w_exec w1 PACTL = true →
  enable_action args w =
    if is_Exception e
    then (Returned tt, with_trace w1 (w_trace w1 ++ disable_events ++ [Traceback e]))
    else (Raised e, w1).
Proof.
  intros H E. rewrite (enable_action_raised _ _ _ _ H).
  destruct (is_Exception e); [|done]. by apply enable_handler_run.
Qed.

Lemma enable_action_returned args w w1 :
  enable_body args w = (Returned tt, w1) →
  enable_action args w = (Returned tt, w1).
Proof. intros H. unfold enable_action, try_except_Exception. by rewrite H. Qed.

(** Once [enable_rnnoise] has returned, the rest of the action only adds to
    the trace. *)
Lemma enable_action_after args w w1 :
  enable_rnnoise args w = (Returned tt, w1) →
  ∃ es, added w1 (enable_action args w).2 es ∧
        (monitor args = false → es = []).
Proof.
  intros H.
  destruct (enable_body args w) as [[[]|e] w2] eqn:Hb.
  - rewrite (enable_action_returned _ _ _ Hb).
    revert Hb. unfold enable_body. munfold. rewrite H.
    destruct (monitor args).
    + rewrite enable_monitoring_run.
      destruct (get_default_sinks w1).1; intros [= <-].
      eexists. split; [by unfold added; wnorm|done].
    + intros [= <-]. exists []. split; [|done]. unfold added. by rewrite app_nil_r.
  - rewrite (enable_action_raised _ _ _ _ Hb).
    revert Hb. unfold enable_body. munfold. rewrite H.
    destruct (monitor args); [|done].
    rewrite enable_monitoring_run.
    destruct (get_default_sinks w1).1; [done|]. intros [= <- <-].
    destruct (is_Exception _); [|eexists; (split; [by unfold added; wnorm|done])].
    munfold.
    match goal with |- context [disable_rnnoise ?w3] =>
      destruct (disable_rnnoise_adds w3) as (r & es & -> & _) end.
    destruct r; eexists; (split; [by unfold added; wnorm|done]).
Qed.

End EnableFacts.

(** * How the enable action ends *)

Section MoreEnableFacts.

Abbreviation checked_loop commands :=
  (for_in commands (λ command : list string,
     print stderr (Shlex.join command);;
     subprocess_run command true;;
     mret tt)).

(** The loop of [enable_rnnoise] ends normally or with an [Exception]: the
    error of a command that failed or could not be executed. *)
Lemma checked_loop_outcome commands w :
  ∃ k r, checked_loop commands w =
           (r, with_trace w (w_trace w ++ flat_map announce (take k commands))) ∧
         (r = Returned tt ∨ ∃ e, r = Raised e ∧ is_Exception e = true).
Proof.
  revert w. induction commands as [|c commands IH]; intros w.
  - exists 0%nat, (Returned tt). split; [|by left].
    cbn. by rewrite app_nil_r, with_trace_same.
  - rewrite for_in_cons. cbv beta.
    destruct (checked_step_any c w) as (r & -> & [-> | (e & -> & He)]).
    + match goal with |- context [for_in commands _ ?w1] =>
        destruct (IH w1) as (k & r & -> & Hr) end.
      exists (S k), r. split; [|done]. cbn [take flat_map]. by wnorm.
    + exists 1%nat. eexists. split; [|right; by eexists].
      cbn [take flat_map]. by rewrite app_nil_r.
Qed.

(** Sink inspection fails with an [Exception] only. *)
Lemma get_default_sinks_raises w e :
  (get_default_sinks w).1 = Raised e → is_Exception e = true.
Proof.
  rewrite get_default_sinks_run.
  destruct (w_exec w PACMD),
    (Sinks.last_match Sinks.SOURCE (Sinks.stat_lines w)),
    (Sinks.last_match Sinks.SINK (Sinks.stat_lines w)); cbn; by intros [= <-].
Qed.

(** How the [try] block of the enable action ends: with [SystemExit 1] when
    the names are found and the plugin binary is missing, and otherwise
    normally or with an [Exception]; in every case it only adds events. *)
Lemma enable_body_shape args w :
  ∃ r es, enable_body args w = (r, with_trace w (w_trace w ++ es)) ∧
    if plugin_missed args w
    then r = Raised (SystemExit 1)
    else r = Returned tt ∨ ∃ e, r = Raised e ∧ is_Exception e = true.
Proof.
  unfold enable_body, plugin_missed. munfold.
  destruct (get_default_sinks w).1 as [[i o]|e] eqn:Hs.
  - destruct (plugin_present args w) eqn:Hp; cbn [negb].
    + rewrite (enable_rnnoise_loop _ _ _ _ Hs Hp).
      match goal with |- context [for_in ?c _ ?w1] =>
        destruct (checked_loop_outcome c w1) as (k & r & -> & [-> | (e & -> & He)]) end.
      * destruct (monitor args).
        -- match goal with |- context [enable_monitoring ?w1] =>
             rewrite (enable_monitoring_run w1);
             destruct (get_default_sinks w1).1 as [s2|e2] eqn:Hs2 end.
           ++ eexists _, _. split; [by wnorm|by left].
           ++ eexists _, _. split; [by wnorm|].
              right. eexists. split; [done|]. by eapply get_default_sinks_raises.
        -- eexists _, _. split; [by wnorm|by left].
      * eexists _, _. split; [by wnorm|]. right. by eexists.
    + rewrite (enable_rnnoise_missing _ _ _ Hs Hp). by eexists _, _.
  - rewrite (enable_rnnoise_unbound _ _ _ Hs).
    eexists _, _. split; [done|]. right. eexists. split; [done|].
    by eapply get_default_sinks_raises.
Qed.

(** The [try] block does not change which programs can be executed. *)
Lemma enable_body_exec args w r w1 :
  enable_body args w = (r, w1) → w_exec w1 = w_exec w.
Proof.
  destruct (enable_body_shape args w) as (r' & es & -> & _). by intros [= _ <-].
Qed.

(** The enable action as a whole: it ends with [SystemExit 1] on the
    missing plugin binary; otherwise it returns, unless its handler ran and
    [pactl] could not be executed. *)
Lemma enable_action_shape args w :
  ∃ r es, enable_action args w = (r, with_trace w (w_trace w ++ es)) ∧
    if plugin_missed args w
    then r = Raised (SystemExit 1)
    else r = Returned tt ∨ (r = Raised OSError ∧ w_exec w PACTL = false).
Proof.
  destruct (enable_body_shape args w) as (r & es & Hb & Hr).
  destruct (plugin_missed args w).
  - subst r. rewrite (enable_action_raised _ _ _ _ Hb). by eexists _, _.
  - destruct Hr as [-> | (e & -> & He)].
    + rewrite (enable_action_returned _ _ _ Hb). eexists _, _. split; [done|by left].
    + rewrite (enable_action_raised _ _ _ _ Hb), He.
      destruct (w_exec w PACTL) eqn:E.
      * rewrite enable_handler_run by done. eexists _, _. split; [by wnorm|by left].
      * rewrite enable_handler_absent by done. eexists _, _. split; [by wnorm|by right].
Qed.

End MoreEnableFacts.

(** * More on sink inspection: which line decides *)

Section LastMatch.

Lemma drop_append (p v : string) : Py.drop (String.length p) (p +:+ v) = v.
Proof. induction p as [|c p IH]; [by destruct v|]. exact IH. Qed.

Lemma value_of_prefixed (pfx v : string) :
  Sinks.value pfx (pfx +:+ v) = Py.before_first ": " v.
Proof. unfold Sinks.value, Sinks.verbatim. by rewrite drop_append. Qed.

(** A text without the separator is its own first segment. *)
Lemma before_first_whole (sep v : string) :
  ¬ Py.contains sep v → Py.before_first sep v = v.
Proof.
  induction v as [|c v IH]; intros Hno; [done|].
  cbn [Py.before_first]. destruct (String.prefix sep (String c v)) eqn:E.
  - destruct Hno. apply prefix_drop in E. by exists "", (Py.drop (String.length sep) (String c v)).
  - f_equal. apply IH. intros (a & b & ->). apply Hno. by exists (String c a), b.
Qed.

Lemma last_match_is_Some (pfx : string) (lines : list string) :
  (∃ line, line ∈ lines ∧ Py.startswith line pfx = true) →
  is_Some (Sinks.last_match pfx lines).
Proof.
  intros (line & Hin & Hpfx). unfold Sinks.last_match, Sinks.matching.
  apply last_is_Some. intros Hnil.
  assert (line ∈ filter (λ line, Py.startswith line pfx = true) lines) as Hf
    by (by apply list_elem_of_filter).
  rewrite Hnil in Hf. by apply not_elem_of_nil in Hf.
Qed.

End LastMatch.

(** * Release resolution *)

Section ResolutionFacts.

(** The loop keeps the URL of the last matching asset. *)
Lemma resolve_download_url_last (assets : list asset) :
  resolve_download_url assets = browser_download_url <$> last (for_linux assets).
Proof.
  unfold resolve_download_url, for_linux.
  induction assets as [|a assets IH] using rev_ind; [done|].
  rewrite foldl_app, filter_app. cbn [foldl]. rewrite IH, filter_cons, filter_nil.
  destruct (Py.startswith (name a) "linux") eqn:E; case_decide; try done.
  - by rewrite last_snoc.
  - by rewrite app_nil_r.
Qed.

End ResolutionFacts.

(** * The file system under [rmtree] *)

Section FsFacts.

Lemma elem_of_for_linux (a : asset) (assets : list asset) :
  a ∈ for_linux assets ↔ Py.startswith (name a) "linux" = true ∧ a ∈ assets.
Proof. unfold for_linux. by rewrite list_elem_of_filter. Qed.

Lemma is_dir_at_remove_tree (fs : gmap loc node) (l : loc) :
  l ≠ [] → Fs.is_dir_at (Fs.remove_tree fs l) l = false.
Proof.
  intros Hl. unfold Fs.is_dir_at, Fs.node_at, Fs.remove_tree.
  destruct l as [|x l]; [done|].
  rewrite map_lookup_filter_None_2; [done|].
  right. intros v _ Hnot. by apply Hnot.
Qed.

End FsFacts.

(** * Download *)

Section DownloadFacts.

Variable unquote : string → string.
Variable int : string → option Z.

Lemma make_dirs_keeps (fs fs' : gmap loc node) (done todo k : loc) :
  Fs.make_dirs fs done todo = Some fs' → fs !! k = Some Dir → fs' !! k = Some Dir.
Proof.
  revert fs done. induction todo as [|x todo IH]; intros fs done H Hk.
  - by injection H as <-.
  - cbn [Fs.make_dirs] in H.
    destruct (fs !! (done ++ [x])) as [[|c]|] eqn:E; [by eapply IH| done |].
    eapply IH; [exact H|]. rewrite lookup_insert_ne; [done|]. congruence.
Qed.

(** After [mkdir] with parents the directory is there. *)
Lemma make_dirs_is_dir (fs fs' : gmap loc node) (done todo : loc) :
  Fs.make_dirs fs done todo = Some fs' →
  Fs.is_dir_at fs done = true →
  Fs.is_dir_at fs' (done ++ todo) = true.
Proof.
  revert fs done. induction todo as [|x todo IH]; intros fs done H Hd.
  - injection H as <-. by rewrite app_nil_r.
  - cbn [Fs.make_dirs] in H. rewrite (app_assoc done [x] todo : done ++ x :: todo = _).
    destruct (fs !! (done ++ [x])) as [[|c]|] eqn:E; [| done |].
    + eapply IH; [exact H|]. unfold Fs.is_dir_at, Fs.node_at.
      destruct (done ++ [x]) eqn:E'; [done|]. by rewrite E.
    + eapply IH; [exact H|]. unfold Fs.is_dir_at, Fs.node_at.
      destruct (done ++ [x]) eqn:E'; [done|]. by rewrite lookup_insert_eq.
Qed.

Lemma total_size_run (stream : response) (total : Z) (w : World) :
  Download.total_size int stream = Some total →
  match r_headers stream !! "content-length" with
  | Some n => int_of int n
  | None => mret 0
  end w = (Returned total, w).
Proof.
  unfold Download.total_size, int_of. destruct (r_headers stream !! _) as [n|].
  - by intros ->.
  - by intros [= <-].
Qed.

(** With an override the file is written where the override says; nothing
    else is looked at and no directory is made. *)
Lemma download_override url s save_path chunk_size w total :
  s ≠ "" →
  Download.total_size int (w_http w url) = Some total →
  Fs.writable (w_fs w) (Fs.resolve (w_cwd w) (Pathlib.of_str s)) = true →
  download unquote int url (Some s) save_path chunk_size w =
    (Returned (Pathlib.of_str s),
     with_fs
       (with_trace w (w_trace w ++ [Get url] ++
          Download.summary url total chunk_size (Pathlib.of_str s) ++
          [Write_ (Fs.resolve (w_cwd w) (Pathlib.of_str s))
                  (Download.content (w_http w url))]))
       (<[Fs.resolve (w_cwd w) (Pathlib.of_str s) :=
            File (Download.content (w_http w url))]> (w_fs w))).
Proof.
  intros Hs Ht Hw. unfold download, requests_get, truthy, write_file.
  rewrite (bool_decide_true _ Hs). munfold. cbn [default from_option]. unfold id.
  rewrite (total_size_run _ _ _ Ht). wnorm. by rewrite Hw.
Qed.

(** Without an override the name comes from the answer, the directory is
    made first, and the path that results is URL-decoded. *)
Lemma download_derived url save_as save_path chunk_size w total fs' :
  let stream := w_http w url in
  let dir := Pathlib.of_str (default "." save_path) in
  let out := Pathlib.of_str (unquote (Pathlib.str (dir </> Download.file_name stream))) in
  truthy save_as = false →
  Download.total_size int stream = Some total →
  Fs.make_dirs (w_fs w) [] (Fs.resolve (w_cwd w) dir) = Some fs' →
  Fs.writable fs' (Fs.resolve (w_cwd w) out) = true →
  download unquote int url save_as save_path chunk_size w =
    (Returned out,
     with_fs
       (with_trace w (w_trace w ++ [Get url; Mkdir (Fs.resolve (w_cwd w) dir)] ++
          Download.summary url total chunk_size out ++
          [Write_ (Fs.resolve (w_cwd w) out) (Download.content stream)]))
       (<[Fs.resolve (w_cwd w) out := File (Download.content stream)]> fs')).
Proof.
  intros stream dir out Hs Ht Hm Hw.
  unfold download, requests_get, mkdir_parents, write_file. rewrite Hs. munfold. wnorm.
  fold stream. fold dir. rewrite Hm.
  assert (match
            match r_headers stream !! "content-disposition" with
            | Some disposition => disposition_file_name disposition
            | None => None
            end
          with
          | Some file_name => dir </> file_name
          | None => dir </> Py.last_item (Py.split "/" (r_url stream))
          end = dir </> Download.file_name stream) as ->.
  { unfold Download.file_name.
    destruct (r_headers stream !! "content-disposition") as [d|]; [|done].
    cbn. by destruct (disposition_file_name d). }
  fold out. rewrite (total_size_run _ _ _ Ht). wnorm. by rewrite Hw.
Qed.

End DownloadFacts.

(** * The claims *)

Section Claims.

Variable unquote : string → string.
Variable int : string → option Z.
Variable tar_extractall : string → loc → gmap loc node → option (gmap loc node).

Abbreviation run_script := (run unquote int tar_extractall).

Lemma run_enable args w :
  action_ args = enable →
  run_script args w =
    match enable_action args w with
    | (Returned _, w') => (0, w')
    | (Raised (SystemExit code), w') => (code, w')
    | (Raised e, w') => (1, with_trace w' (w_trace w' ++ [Traceback e]))
    end.
Proof. intros H. unfold run, script. by rewrite H. Qed.

(** C3, amended.  In any world in which [pactl] can be executed, whatever
    ran before and whatever the commands answer, [disable_rnnoise] returns
    without an exception and issues exactly the four unload commands, one per
    module type, in the order loopback, null-sink, ladspa-sink, remap-source;
    it changes nothing else. *)
Theorem disable_issues_four_unloads (w : World) :
  w_exec w PACTL = true →
  ∃ w', disable_rnnoise w = (Returned tt, w') ∧
        calls (w_trace w') = calls (w_trace w) ++
          [ [PACTL; "unload-module"; "module-loopback"];
            [PACTL; "unload-module"; "module-null-sink"];
            [PACTL; "unload-module"; "module-ladspa-sink"];
            [PACTL; "unload-module"; "module-remap-source"] ] ∧
        w_fs w' = w_fs w.
Proof.
  intros E. eexists. split; [by apply disable_rnnoise_run|]. split; [|done].
  by rewrite with_trace_trace, calls_app.
Qed.

(** C2, amended.  When the [try] block of the enable action raises an
    exception of class [Exception] and [pactl] can be executed, the script
    runs the whole unload sequence (four commands), then prints the trace of
    the error, does not raise again, and the process exits with status 0. *)
Theorem enable_failure_rolls_back (args : Args) (w w1 : World) (e : exn) :
  action_ args = enable →
  w_exec w PACTL = true →
  enable_body args w = (Raised e, w1) →
  is_Exception e = true →
  ∃ w', script unquote int tar_extractall args w = (Returned tt, w') ∧
        run_script args w = (0, w') ∧
        w_trace w' = w_trace w1 ++ disable_events ++ [Traceback e] ∧
        calls disable_events =
          [ [PACTL; "unload-module"; "module-loopback"];
            [PACTL; "unload-module"; "module-null-sink"];
            [PACTL; "unload-module"; "module-ladspa-sink"];
            [PACTL; "unload-module"; "module-remap-source"] ].
Proof.
  intros Ha Hx Hb He.
  assert (w_exec w1 PACTL = true) as Hx1 by (by rewrite (enable_body_exec _ _ _ _ Hb)).
  eexists. split; [|split; [|split; [|done]]].
  - unfold script. rewrite Ha, (enable_action_handled _ _ _ _ Hb Hx1), He. done.
  - rewrite (run_enable _ _ Ha), (enable_action_handled _ _ _ _ Hb Hx1), He. done.
  - done.
Qed.

(** C1, amended.  When sink inspection finds both names, the plugin binary
    is in place and every external command succeeds, [enable_rnnoise]
    returns having issued, after the status query, exactly the five
    module-creation commands, each as a call of its own, in the order
    null-sink, ladspa-sink, loopback, remap-source, set-default-source; the
    enable action issues nothing before them and, without the monitor option,
    nothing after them. *)
Theorem enable_issues_five_in_order (args : Args) (w : World) (i o : string) :
  action_ args = enable →
  (get_default_sinks w).1 = Returned (i, o) →
  plugin_present args w = true →
  all_succeed w →
  ∃ w1 rest,
    enable_rnnoise args w = (Returned tt, w1) ∧
    calls (w_trace w1) = calls (w_trace w) ++
      [ STAT;
        [PACMD; "load-module"; "module-null-sink"; "sink_name=mic_denoised_out";
         "rate=48000"];
        [PACMD; "load-module"; "module-ladspa-sink"; "sink_name=mic_raw_in";
         "sink_master=mic_denoised_out"; "label=noise_suppressor_mono";
         "plugin=" +:+ Pathlib.str (ladspa_file args); "control=95"];
        [PACMD; "load-module"; "module-loopback"; "source=" +:+ i;
         "sink=mic_raw_in"; "channels=1"];
        [PACMD; "load-module"; "module-remap-source"; "source_name=denoised";
         "master=mic_denoised_out.monitor"; "channels=1"];
        [PACMD; "set-default-source"; "denoised"] ] ∧
    calls (w_trace (run_script args w).2) = calls (w_trace w1) ++ rest ∧
    (monitor args = false → rest = []).
Proof.
  intros Ha Hs Hp Hok.
  pose proof (enable_rnnoise_ok _ _ _ _ Hs Hp Hok) as Hrun.
  destruct (enable_action_after _ _ _ Hrun) as (es & Hes & Hmon).
  eexists _, (calls es). split; [exact Hrun|]. split; [|split].
  - rewrite with_trace_trace, calls_app. by f_equal.
  - rewrite (run_enable _ _ Ha). unfold added in Hes.
    destruct (enable_action args w) as [[[]|e] w2]; cbn [snd] in *.
    + by rewrite Hes, calls_app.
    + destruct e; cbn [snd];
        rewrite ?with_trace_trace, ?calls_traceback, Hes, calls_app; done.
  - intros Hm. by rewrite (Hmon Hm).
Qed.

(** C6, amended.  [enable_rnnoise] first runs the status query, whatever
    the state of the install directory, and only then looks for the plugin
    binary, at [bin/ladspa/librnnoise_ladspa.so] under the install
    directory; when the query gave both names and the binary is missing, it
    prints that the binary was not found and leaves with [SystemExit 1], so
    that the enable action ends the process with status 1. *)
Theorem enable_queries_then_verifies (args : Args) (w : World) :
  (∃ es, added w (enable_rnnoise args w).2
           ([Print stderr "Enabling RNNoise for PulseAudio";
             Print stderr "Loading PulseAudio module";
             Run STAT] ++ es)) ∧
  Pathlib.parts (ladspa_file args) =
    Pathlib.parts (path args) ++ ["bin"; "ladspa"; "librnnoise_ladspa.so"] ∧
  Pathlib.root (ladspa_file args) = Pathlib.root (path args) ∧
  (∀ sinks,
     (get_default_sinks w).1 = Returned sinks →
     plugin_present args w = false →
     enable_rnnoise args w =
       (Raised (SystemExit 1),
        with_trace w (w_trace w ++
          [Print stderr "Enabling RNNoise for PulseAudio";
           Print stderr "Loading PulseAudio module";
           Run STAT;
           Print stderr "librnnoise_ladspa.so not found"])) ∧
     (action_ args = enable → (run_script args w).1 = 1)).
Proof.
  split; [|split; [|split]].
  - destruct (enable_rnnoise_added args w) as (es & Hes & _). by exists es.
  - by rewrite ladspa_file_under.
  - by rewrite ladspa_file_under.
  - intros sinks Hs Hp.
    pose proof (enable_rnnoise_missing _ _ _ Hs Hp) as Hrun. split; [exact Hrun|].
    intros Ha. rewrite (run_enable _ _ Ha).
    assert (enable_body args w = (Raised (SystemExit 1),
              with_trace w (w_trace w ++ enable_prologue ++
                [Print stderr "librnnoise_ladspa.so not found"]))) as Hb.
    { unfold enable_body. munfold. by rewrite Hrun. }
    by rewrite (enable_action_raised _ _ _ _ Hb).
Qed.

(** C9, amended.  When sink inspection finds both names and the plugin
    binary is absent, the [try] block of the enable action leaves with
    [SystemExit 1], which is no [Exception]: the handler does not run, no
    unload command is issued, no error trace is printed, and the process
    exits with status 1, the status query being its only external command. *)
Theorem missing_plugin_exits_without_rollback (args : Args) (w : World)
    (sinks : string * string) :
  action_ args = enable →
  (get_default_sinks w).1 = Returned sinks →
  plugin_present args w = false →
  ∃ w', enable_body args w = (Raised (SystemExit 1), w') ∧
        is_Exception (SystemExit 1) = false ∧
        run_script args w = (1, w') ∧
        calls (w_trace w') = calls (w_trace w) ++ [STAT] ∧
        w_trace w' = w_trace w ++
          [Print stderr "Enabling RNNoise for PulseAudio";
           Print stderr "Loading PulseAudio module";
           Run STAT;
           Print stderr "librnnoise_ladspa.so not found"].
Proof.
  intros Ha Hs Hp.
  pose proof (enable_rnnoise_missing _ _ _ Hs Hp) as Hrun.
  assert (enable_body args w = (Raised (SystemExit 1),
            with_trace w (w_trace w ++ enable_prologue ++
              [Print stderr "librnnoise_ladspa.so not found"]))) as Hb.
  { unfold enable_body. munfold. by rewrite Hrun. }
  eexists. split; [exact Hb|]. split; [done|]. split; [|split].
  - by rewrite (run_enable _ _ Ha), (enable_action_raised _ _ _ _ Hb).
  - by rewrite with_trace_trace, calls_app.
  - done.
Qed.

(** C4, amended.  When the status output has at least one line with each
    of the two prefixes, sink inspection returns, for each prefix, the value
    of the last such line, cut before its first colon-and-space; a value
    without one is returned whole, so that the two lines of the example give
    exactly their two names. *)
Theorem get_default_sinks_last_match (w : World) :
  (∃ line, line ∈ Sinks.stat_lines w ∧
           Py.startswith line "Default source name: " = true) →
  (∃ line, line ∈ Sinks.stat_lines w ∧
           Py.startswith line "Default sink name: " = true) →
  ∃ ls lk,
    Sinks.last_match "Default source name: " (Sinks.stat_lines w) = Some ls ∧
    Sinks.last_match "Default sink name: " (Sinks.stat_lines w) = Some lk ∧
    get_default_sinks w =
      (Returned (Py.before_first ": " (Py.drop 21 ls),
                 Py.before_first ": " (Py.drop 19 lk)),
       Sinks.queried w) ∧
    (¬ Py.contains ": " (Py.drop 21 ls) →
     Py.before_first ": " (Py.drop 21 ls) = Py.drop 21 ls) ∧
    (¬ Py.contains ": " (Py.drop 19 lk) →
     Py.before_first ": " (Py.drop 19 lk) = Py.drop 19 lk) ∧
    (ls = "Default source name: alsa_input.pci-0000_00_1f.3.analog-stereo" →
     lk = "Default sink name: alsa_output.pci-0000_00_1f.3.analog-stereo" →
     (get_default_sinks w).1 =
       Returned ("alsa_input.pci-0000_00_1f.3.analog-stereo",
                 "alsa_output.pci-0000_00_1f.3.analog-stereo")).
Proof.
  intros [ls Hs]%last_match_is_Some [lk Hk]%last_match_is_Some.
  pose proof (get_default_sinks_run w) as Hrun.
  rewrite (last_match_exec w _ _ Hs) in Hrun by done.
  change Sinks.SOURCE with "Default source name: " in Hrun.
  change Sinks.SINK with "Default sink name: " in Hrun.
  rewrite Hs, Hk in Hrun.
  exists ls, lk. split; [done|]. split; [done|]. split; [exact Hrun|].
  split; [apply before_first_whole|]. split; [apply before_first_whole|].
  intros -> ->. by rewrite Hrun.
Qed.

(** C10, amended.  On a line with one of the two prefixes whose value holds
    a colon and a space, the element at index 1 of the split is the part of
    the value before its first colon-and-space: a proper part, followed in
    the value by the separator.  When that line is the last line of the
    status output with its prefix, and the output has a line with the other
    prefix too, sink inspection returns this part for it, not the value. *)
Theorem colon_in_value_truncates (v : string) :
  Py.contains ": " v →
  (∃ rest, v = Py.before_first ": " v +:+ ": " +:+ rest) ∧
  Py.before_first ": " v ≠ v ∧
  (∀ w, item (Py.split ": " ("Default source name: " +:+ v)) 1 w =
          (Returned (Py.before_first ": " v), w)) ∧
  (∀ w, item (Py.split ": " ("Default sink name: " +:+ v)) 1 w =
          (Returned (Py.before_first ": " v), w)) ∧
  (∀ w lk,
     Sinks.last_match "Default source name: " (Sinks.stat_lines w) =
       Some ("Default source name: " +:+ v) →
     Sinks.last_match "Default sink name: " (Sinks.stat_lines w) = Some lk →
     ∃ o, (get_default_sinks w).1 = Returned (Py.before_first ": " v, o)) ∧
  (∀ w ls,
     Sinks.last_match "Default sink name: " (Sinks.stat_lines w) =
       Some ("Default sink name: " +:+ v) →
     Sinks.last_match "Default source name: " (Sinks.stat_lines w) = Some ls →
     ∃ i, (get_default_sinks w).1 = Returned (i, Py.before_first ": " v)).
Proof.
  intros Hv. split; [by apply before_first_cut|].
  split; [by apply before_first_truncates|].
  split; [|split; [|split]].
  - intros w. unfold item.
    change ("Default source name: " +:+ v) with ("Default source name" +:+ ": " +:+ v).
    by rewrite split_prefixed_line.
  - intros w. unfold item.
    change ("Default sink name: " +:+ v) with ("Default sink name" +:+ ": " +:+ v).
    by rewrite split_prefixed_line.
  - intros w lk Hs Hk. rewrite get_default_sinks_run.
    rewrite (last_match_exec w _ _ Hs) by done.
    change Sinks.SOURCE with "Default source name: ".
    change Sinks.SINK with "Default sink name: ".
    rewrite Hs, Hk. eexists. cbn [fst]. by rewrite value_of_prefixed.
  - intros w ls Hk Hs. rewrite get_default_sinks_run.
    rewrite (last_match_exec w _ _ Hs) by done.
    change Sinks.SOURCE with "Default source name: ".
    change Sinks.SINK with "Default sink name: ".
    rewrite Hs, Hk. eexists. cbn [fst]. by rewrite value_of_prefixed.
Qed.



(** C5, amended.  A download with an explicit override writes the file at
    the override, taken as it is: no header and no URL is looked at and no
    directory is created.  Without an override the file goes to the save
    directory (the current directory when none is given), under the name of
    the content-disposition header when it has one and else under the last
    segment of the final URL, the path being URL-decoded as a whole; the save
    directory is created, with its parents, before the file is written. *)
Theorem download_output_file (url : string) (save_as save_path : option string)
    (chunk_size : Z) (w : World) (total : Z) :
  let stream := w_http w url in
  let dir := Pathlib.of_str (default "." save_path) in
  let file_name :=
    match r_headers stream !! "content-disposition" ≫= disposition_file_name with
    | Some f => f
    | None => Py.last_item (Py.split "/" (r_url stream))
    end in
  let derived := Pathlib.of_str (unquote (Pathlib.str (dir </> file_name))) in
  Download.total_size int stream = Some total →
  (∀ s, save_as = Some s → s ≠ "" →
     Fs.writable (w_fs w) (Fs.resolve (w_cwd w) (Pathlib.of_str s)) = true →
     ∃ w', download unquote int url save_as save_path chunk_size w =
             (Returned (Pathlib.of_str s), w') ∧
           added w w'
             ([Get url] ++
              Download.summary url total chunk_size (Pathlib.of_str s) ++
              [Write_ (Fs.resolve (w_cwd w) (Pathlib.of_str s))
                      (Download.content stream)])) ∧
  (truthy save_as = false →
   ∀ fs',
     Fs.make_dirs (w_fs w) [] (Fs.resolve (w_cwd w) dir) = Some fs' →
     Fs.writable fs' (Fs.resolve (w_cwd w) derived) = true →
     ∃ w', download unquote int url save_as save_path chunk_size w =
             (Returned derived, w') ∧
           added w w'
             ([Get url; Mkdir (Fs.resolve (w_cwd w) dir)] ++
              Download.summary url total chunk_size derived ++
              [Write_ (Fs.resolve (w_cwd w) derived) (Download.content stream)]) ∧
           Fs.is_dir_at (w_fs w') (Fs.resolve (w_cwd w) dir) = true).
Proof.
  intros stream dir file_name derived Ht. split.
  - intros s -> Hs Hw. eexists. split; [by apply download_override|].
    unfold added. by wnorm.
  - intros Hs fs' Hm Hw. eexists. split; [by eapply download_derived|].
    split; [unfold added; by wnorm|]. wnorm.
    pose proof (make_dirs_is_dir _ _ [] _ Hm eq_refl) as Hd. cbn [app] in Hd.
    assert (Fs.resolve (w_cwd w) derived ≠ Fs.resolve (w_cwd w) dir) as Hne.
    { intros E. fold file_name in Hw. fold derived in Hw. rewrite E in Hw.
      unfold Fs.writable in Hw. rewrite Hd in Hw.
      by rewrite andb_false_r in Hw. }
    unfold Fs.is_dir_at, Fs.node_at in *.
    destruct (Fs.resolve (w_cwd w) dir) as [|x l]; [done|].
    rewrite lookup_insert_ne; [done|]. exact Hne.
Qed.

End Claims.

(** * The claims at sample inputs *)

(** Every unload exits with status 1: the four are issued all the same. *)
Lemma disable_issues_four_unloads_witness :
  (disable_rnnoise Sample.w_no_server).1 = Returned tt ∧
  calls (w_trace (disable_rnnoise Sample.w_no_server).2) =
    [ [PACTL; "unload-module"; "module-loopback"];
      [PACTL; "unload-module"; "module-null-sink"];
      [PACTL; "unload-module"; "module-ladspa-sink"];
      [PACTL; "unload-module"; "module-remap-source"] ].
Proof.
  destruct (disable_issues_four_unloads Sample.w_no_server eq_refl)
    as (w' & Hrun & Hcalls & _).
  rewrite Hrun. split; [reflexivity|exact Hcalls].
Defined.

(** C3 as stated fails: where [pactl] cannot be executed, the first unload
    raises; the disable action ends with that error and status 1, and the
    other three unloads are never tried. *)
Lemma disable_without_pactl_raises :
  (disable_rnnoise More.w_ready_no_pactl).1 = Raised OSError ∧
  calls (w_trace (disable_rnnoise More.w_ready_no_pactl).2) =
    [ [PACTL; "unload-module"; "module-loopback"] ] ∧
  (sample_run (Sample.args_of disable false) More.w_ready_no_pactl).1 = 1 ∧
  last (w_trace (sample_run (Sample.args_of disable false) More.w_ready_no_pactl).2) =
    Some (Traceback OSError).
Proof. repeat split; vm_compute; reflexivity. Qed.

(** C2 as stated fails: the loopback command fails, an [Exception]; where
    [pactl] cannot be executed the first unload of the handler raises in its
    turn, the other three are never tried, and the process ends with that
    second error and status 1. *)
Lemma enable_failure_without_pactl :
  (enable_body (Sample.args_of enable false) More.w_no_pactl).1 =
    Raised (CalledProcessError 1
              [PACMD; "load-module"; "module-loopback";
               "source=alsa_input.pci-0000_00_1f.3.analog-stereo";
               "sink=mic_raw_in"; "channels=1"]) ∧
  (sample_run (Sample.args_of enable false) More.w_no_pactl).1 = 1 ∧
  calls (w_trace (sample_run (Sample.args_of enable false) More.w_no_pactl).2) =
    [ STAT;
      [PACMD; "load-module"; "module-null-sink"; "sink_name=mic_denoised_out";
       "rate=48000"];
      [PACMD; "load-module"; "module-ladspa-sink"; "sink_name=mic_raw_in";
       "sink_master=mic_denoised_out"; "label=noise_suppressor_mono";
       "plugin=/home/user/.local/share/rnnoise/bin/ladspa/librnnoise_ladspa.so";
       "control=95"];
      [PACMD; "load-module"; "module-loopback";
       "source=alsa_input.pci-0000_00_1f.3.analog-stereo"; "sink=mic_raw_in";
       "channels=1"];
      [PACTL; "unload-module"; "module-loopback"] ] ∧
  last (w_trace (sample_run (Sample.args_of enable false) More.w_no_pactl).2) =
    Some (Traceback OSError) ∧
  (sample_run (Sample.args_of enable false) More.w_no_tools).1 = 1 ∧
  calls (w_trace (sample_run (Sample.args_of enable false) More.w_no_tools).2) =
    [ STAT; [PACTL; "unload-module"; "module-loopback"] ].
Proof. repeat split; vm_compute; reflexivity. Qed.

(** The loopback command fails: the four unloads follow and the status is 0. *)
Lemma enable_failure_rolls_back_witness :
  (sample_run (Sample.args_of enable false) Sample.w_no_loopback).1 = 0 ∧
  calls (w_trace (sample_run (Sample.args_of enable false) Sample.w_no_loopback).2) =
    [ STAT;
      [PACMD; "load-module"; "module-null-sink"; "sink_name=mic_denoised_out";
       "rate=48000"];
      [PACMD; "load-module"; "module-ladspa-sink"; "sink_name=mic_raw_in";
       "sink_master=mic_denoised_out"; "label=noise_suppressor_mono";
       "plugin=/home/user/.local/share/rnnoise/bin/ladspa/librnnoise_ladspa.so";
       "control=95"];
      [PACMD; "load-module"; "module-loopback";
       "source=alsa_input.pci-0000_00_1f.3.analog-stereo"; "sink=mic_raw_in";
       "channels=1"];
      [PACTL; "unload-module"; "module-loopback"];
      [PACTL; "unload-module"; "module-null-sink"];
      [PACTL; "unload-module"; "module-ladspa-sink"];
      [PACTL; "unload-module"; "module-remap-source"] ].
Proof.
  destruct (enable_failure_rolls_back Sample.unquote Sample.int Sample.tar_extractall
              (Sample.args_of enable false) Sample.w_no_loopback
              (enable_body (Sample.args_of enable false) Sample.w_no_loopback).2
              (CalledProcessError 1
                 [PACMD; "load-module"; "module-loopback";
                  "source=alsa_input.pci-0000_00_1f.3.analog-stereo";
                  "sink=mic_raw_in"; "channels=1"]))
    as (w' & _ & Hrun & Htrace & _).
  - reflexivity.
  - reflexivity.
  - apply pair_fst_eq. vm_compute. reflexivity.
  - reflexivity.
  - rewrite Hrun. cbn [fst snd]. split; [reflexivity|].
    rewrite Htrace. vm_compute. reflexivity.
Defined.

Lemma enable_issues_five_in_order_witness :
  (enable_rnnoise (Sample.args_of enable false) Sample.w_ready).1 = Returned tt ∧
  length (calls (w_trace (sample_run (Sample.args_of enable false) Sample.w_ready).2)) =
    6%nat.
Proof.
  destruct (enable_issues_five_in_order Sample.unquote Sample.int Sample.tar_extractall
              (Sample.args_of enable false) Sample.w_ready
              "alsa_input.pci-0000_00_1f.3.analog-stereo"
              "alsa_output.pci-0000_00_1f.3.analog-stereo")
    as (w1 & rest & Hrun & Hcalls & Hafter & Hrest).
  - reflexivity.
  - vm_compute. reflexivity.
  - vm_compute. reflexivity.
  - intros history command. unfold Sample.w_ready, Sample.world, Sample.obey. cbn.
    by case_bool_decide.
  - rewrite Hrun. split; [reflexivity|].
    rewrite Hafter, (Hrest eq_refl), app_nil_r, Hcalls. reflexivity.
Defined.

(** C1 as stated fails: every command succeeds, yet the enable action
    issues no module-creation command when the plugin binary is missing. *)
Lemma enable_without_plugin_issues_no_module_command :
  all_succeed Sample.w_no_plugin ∧
  (sample_run (Sample.args_of enable false) Sample.w_no_plugin).1 = 1 ∧
  calls (w_trace (sample_run (Sample.args_of enable false) Sample.w_no_plugin).2) =
    [STAT].
Proof.
  split; [|split; vm_compute; reflexivity].
  intros history command. unfold Sample.w_no_plugin, Sample.world, Sample.obey. cbn.
  by case_bool_decide.
Qed.

Lemma enable_queries_then_verifies_witness :
  (sample_run (Sample.args_of enable false) Sample.w_no_plugin).1 = 1.
Proof.
  destruct (enable_queries_then_verifies Sample.unquote Sample.int Sample.tar_extractall
              (Sample.args_of enable false) Sample.w_no_plugin) as (_ & _ & _ & H).
  destruct (H ("alsa_input.pci-0000_00_1f.3.analog-stereo",
               "alsa_output.pci-0000_00_1f.3.analog-stereo")) as [_ Hexit].
  - vm_compute. reflexivity.
  - vm_compute. reflexivity.
  - exact (Hexit eq_refl).
Defined.

(** C6 as stated fails: with the plugin binary missing, the status query
    has already run when the process exits. *)
Lemma enable_queries_before_verifying :
  plugin_present (Sample.args_of enable false) Sample.w_no_plugin = false ∧
  (sample_run (Sample.args_of enable false) Sample.w_no_plugin).1 = 1 ∧
  w_trace (sample_run (Sample.args_of enable false) Sample.w_no_plugin).2 =
    [Print stderr "Enabling RNNoise for PulseAudio";
     Print stderr "Loading PulseAudio module";
     Run STAT;
     Print stderr "librnnoise_ladspa.so not found"].
Proof. split; [|split]; vm_compute; reflexivity. Qed.

Lemma missing_plugin_exits_without_rollback_witness :
  (sample_run (Sample.args_of enable true) Sample.w_no_plugin).1 = 1 ∧
  calls (w_trace (sample_run (Sample.args_of enable true) Sample.w_no_plugin).2) =
    [STAT].
Proof.
  destruct (missing_plugin_exits_without_rollback Sample.unquote Sample.int
              Sample.tar_extractall (Sample.args_of enable true) Sample.w_no_plugin
              ("alsa_input.pci-0000_00_1f.3.analog-stereo",
               "alsa_output.pci-0000_00_1f.3.analog-stereo"))
    as (w' & _ & _ & Hrun & Hcalls & _).
  - reflexivity.
  - vm_compute. reflexivity.
  - vm_compute. reflexivity.
  - rewrite Hrun. cbn [fst snd]. split; [reflexivity|exact Hcalls].
Defined.

(** C9 as stated fails: the plugin binary is absent, the status query prints
    nothing, and the enable action runs the four unloads, prints the trace of
    the error and exits with status 0. *)
Lemma missing_plugin_no_server_rolls_back :
  plugin_present (Sample.args_of enable false) Sample.w_no_server = false ∧
  (sample_run (Sample.args_of enable false) Sample.w_no_server).1 = 0 ∧
  calls (w_trace (sample_run (Sample.args_of enable false) Sample.w_no_server).2) =
    [ STAT;
      [PACTL; "unload-module"; "module-loopback"];
      [PACTL; "unload-module"; "module-null-sink"];
      [PACTL; "unload-module"; "module-ladspa-sink"];
      [PACTL; "unload-module"; "module-remap-source"] ] ∧
  last (w_trace (sample_run (Sample.args_of enable false) Sample.w_no_server).2) =
    Some (Traceback (UnboundLocalError "input_sink")).
Proof. split; [|split; [|split]]; vm_compute; reflexivity. Qed.

Lemma get_default_sinks_last_match_witness :
  (get_default_sinks Sample.w_ready).1 =
    Returned ("alsa_input.pci-0000_00_1f.3.analog-stereo",
              "alsa_output.pci-0000_00_1f.3.analog-stereo").
Proof.
  destruct (get_default_sinks_last_match Sample.w_ready)
    as (ls & lk & Hs & Hk & _ & _ & _ & Hexample).
  - exists "Default source name: alsa_input.pci-0000_00_1f.3.analog-stereo".
    split; [|reflexivity]. apply (bool_decide_unpack _). vm_compute. exact I.
  - exists "Default sink name: alsa_output.pci-0000_00_1f.3.analog-stereo".
    split; [|reflexivity]. apply (bool_decide_unpack _). vm_compute. exact I.
  - apply Hexample.
    + revert Hs. vm_compute. intros [= <-]. reflexivity.
    + revert Hk. vm_compute. intros [= <-]. reflexivity.
Defined.

(** C4 as stated fails: of two lines that name a default source, the first
    is not the one returned. *)
Lemma get_default_sinks_takes_last_line :
  Sinks.first_match "Default source name: " (Sinks.stat_lines Sample.w_two_sources) =
    Some "Default source name: first" ∧
  (get_default_sinks Sample.w_two_sources).1 = Returned ("second", "out").
Proof. split; vm_compute; reflexivity. Qed.

Lemma colon_in_value_truncates_witness :
  (get_default_sinks Sample.w_colon).1 = Returned ("usb", "out").
Proof.
  destruct (colon_in_value_truncates "usb: front mic") as (_ & _ & _ & _ & H & _).
  - exists "usb", "front mic". reflexivity.
  - destruct (H Sample.w_colon "Default sink name: out") as [o Ho].
    + vm_compute. reflexivity.
    + vm_compute. reflexivity.
    + rewrite Ho. revert Ho. vm_compute. intros [= <-]. reflexivity.
Defined.

(** C10 as stated fails: a source line whose value holds a colon and a
    space is followed by another source line, and sink inspection returns
    the value of the latter; and when the output is that one line, sink
    inspection returns nothing: it raises for the sink. *)
Lemma colon_line_need_not_decide :
  "Default source name: usb: front mic" ∈ Sinks.stat_lines More.w_colon_then_plain ∧
  (get_default_sinks More.w_colon_then_plain).1 = Returned ("plain", "out") ∧
  "Default source name: usb: front mic" ∈ Sinks.stat_lines More.w_colon_alone ∧
  (get_default_sinks More.w_colon_alone).1 = Raised (UnboundLocalError "output_sink").
Proof.
  split; [|split; [|split]].
  - apply (bool_decide_unpack _). vm_compute. exact I.
  - vm_compute. reflexivity.
  - apply (bool_decide_unpack _). vm_compute. exact I.
  - vm_compute. reflexivity.
Qed.




Lemma download_output_file_witness :
  (download Sample.unquote Sample.int "https://x/y"
     (Some "/tmp/rnnoise.tar.gz") None 4096 Sample.w_fresh).1 =
    Returned (Pathlib.of_str "/tmp/rnnoise.tar.gz") ∧
  (download Sample.unquote Sample.int "https://x/y" None (Some "dl/sub") 4096
     Sample.w_fresh).1 =
    Returned (Pathlib.of_str "dl/sub/plugin.tar.gz").
Proof.
  split.
  - destruct (download_output_file Sample.unquote Sample.int "https://x/y"
                (Some "/tmp/rnnoise.tar.gz") None 4096 Sample.w_fresh 7 eq_refl)
      as [H _].
    destruct (H "/tmp/rnnoise.tar.gz" eq_refl) as (w' & Hrun & _).
    + discriminate.
    + vm_compute. reflexivity.
    + rewrite Hrun. reflexivity.
  - destruct (download_output_file Sample.unquote Sample.int "https://x/y"
                None (Some "dl/sub") 4096 Sample.w_fresh 7 eq_refl)
      as [_ H].
    destruct (H eq_refl
                (default ∅ (Fs.make_dirs (w_fs Sample.w_fresh) []
                              ["home"; "user"; "dl"; "sub"])))
      as (w' & Hrun & _ & _).
    + vm_compute. reflexivity.
    + vm_compute. reflexivity.
    + rewrite Hrun. vm_compute. reflexivity.
Defined.

(** C5 as stated fails: the answer names the file in its content-disposition
    header, yet with an override the file goes to the override; and no
    directory is created for it, so that the write fails when the directory
    of the override does not exist. *)
Lemma download_override_first_and_no_mkdir :
  r_headers (w_http Sample.w_fresh "https://x/y") !! "content-disposition"
    ≫= disposition_file_name = Some "plugin.tar.gz" ∧
  (download Sample.unquote Sample.int "https://x/y"
     (Some "/tmp/rnnoise.tar.gz") None 4096 Sample.w_fresh).1 =
    Returned (Pathlib.of_str "/tmp/rnnoise.tar.gz") ∧
  filter (λ e, Download.is_mkdir e = true)
    (w_trace (download Sample.unquote Sample.int "https://x/y"
                (Some "/tmp/rnnoise.tar.gz") None 4096 Sample.w_fresh).2) = [] ∧
  (download Sample.unquote Sample.int "https://x/y"
     (Some "/tmp/new/rnnoise.tar.gz") None 4096 Sample.w_fresh).1 = Raised OSError ∧
  w_trace (download Sample.unquote Sample.int "https://x/y"
             (Some "/tmp/new/rnnoise.tar.gz") None 4096 Sample.w_fresh).2 =
    [Get "https://x/y";
     Print stdout "Downloading: https://x/y";
     Print stdout "Total size: 7";
     Print stdout "Chunk size: 4096";
     Print stdout "Saving to: /tmp/new/rnnoise.tar.gz";
     Write_ ["tmp"; "new"; "rnnoise.tar.gz"] "abcdefg"].
Proof. repeat split; vm_compute; reflexivity. Qed.

(** * Further properties of the script *)


Lemma last_match_None (pfx : string) (lines : list string) :
  (∀ line, line ∈ lines → Py.startswith line pfx = false) →
  Sinks.last_match pfx lines = None.
Proof.
  intros Hno. unfold Sinks.last_match, Sinks.matching. apply last_None.
  induction lines as [|l lines IH]; [done|].
  rewrite filter_cons. case_decide as Hl.
  - rewrite Hno in Hl by left. done.
  - apply IH. intros line Hin. apply Hno. by right.
Qed.

(** * The install action *)

Section InstallFacts.

Variable unquote : string → string.
Variable int : string → option Z.
Variable tar_extractall : string → loc → gmap loc node → option (gmap loc node).

Lemma with_fs_with_trace w fs t :
  with_fs (with_trace w t) fs =
    {| w_fs := fs; w_cwd := w_cwd w; w_exec := w_exec w; w_tools := w_tools w;
       w_http := w_http w; w_trace := t |}.
Proof. done. Qed.

Lemma with_trace_with_fs w fs t :
  with_trace (with_fs w fs) t = with_fs (with_trace w t) fs.
Proof. done. Qed.

Lemma with_fs_twice w fs fs' : with_fs (with_fs w fs) fs' = with_fs w fs'.
Proof. done. Qed.

Lemma with_fs_same w : with_fs w (w_fs w) = w.
Proof. by destruct w. Qed.

Lemma resolve_archive (cwd : loc) :
  Fs.resolve cwd (Pathlib.of_str "/tmp/rnnoise.tar.gz") = Install.archive.
Proof. vm_compute. reflexivity. Qed.

(** The install action up to the request for the listing. *)
Lemma install_opening args w :
  install_action unquote int tar_extractall args w =
    (match resolve_download_url (r_assets (w_http w RELEASES_LATEST)) with
     | None =>
         print stderr
           "Error: failed to find Real-time Noise Suppression Plugin latest release download URL";;
         sys_exit 1
     | Some download_url =>
         rnnoise_tarfile_path ←
           download unquote int download_url (Some "/tmp/rnnoise.tar.gz") None 4096;
         print stderr ("Extracting downloaded archive to: " +:+ Pathlib.str (path args));;
         extractall tar_extractall rnnoise_tarfile_path (path args);;
         unlink rnnoise_tarfile_path;;
         print stderr ("RNNoise has been installed to: " +:+ Pathlib.str (path args))
     end)
      (with_fs (with_trace w (w_trace w ++ Install.opening args w))
         (Install.cleared args w)).
Proof.
  unfold install_action, is_dir, rmtree, requests_get, Install.opening,
    Install.cleared, Install.dest, installed.
  munfold.
  destruct (Fs.is_dir_at (w_fs w) (Fs.resolve (w_cwd w) (path args))) eqn:Hd.
  - wnorm. rewrite Hd. wnorm. rewrite with_trace_with_fs. by wnorm.
  - wnorm. reflexivity.
Qed.

(** The install action up to the archive on disk. *)
Lemma install_fetching args w url total :
  resolve_download_url (r_assets (w_http w RELEASES_LATEST)) = Some url →
  Download.total_size int (w_http w url) = Some total →
  Fs.writable (Install.cleared args w) Install.archive = true →
  install_action unquote int tar_extractall args w =
    (print stderr ("Extracting downloaded archive to: " +:+ Pathlib.str (path args));;
     extractall tar_extractall (Pathlib.of_str "/tmp/rnnoise.tar.gz") (path args);;
     unlink (Pathlib.of_str "/tmp/rnnoise.tar.gz");;
     print stderr ("RNNoise has been installed to: " +:+ Pathlib.str (path args)))
      (with_fs
         (with_trace w (w_trace w ++ Install.opening args w ++
            Install.fetching url total (Download.content (w_http w url))))
         (<[Install.archive := File (Download.content (w_http w url))]>
            (Install.cleared args w))).
Proof.
  intros Hres Ht Hw. rewrite install_opening, Hres.
  set (w2 := with_fs (with_trace w (w_trace w ++ Install.opening args w))
               (Install.cleared args w)).
  assert (download unquote int url (Some "/tmp/rnnoise.tar.gz") None 4096 w2 =
            (Returned (Pathlib.of_str "/tmp/rnnoise.tar.gz"),
             with_fs
               (with_trace w (w_trace w ++ Install.opening args w ++
                  Install.fetching url total (Download.content (w_http w url))))
               (<[Install.archive := File (Download.content (w_http w url))]>
                  (Install.cleared args w)))) as Hd.
  { rewrite (download_override unquote int url "/tmp/rnnoise.tar.gz" None 4096 w2 total).
    - rewrite resolve_archive. unfold w2, Install.fetching. wnorm.
      rewrite with_trace_with_fs, with_fs_twice. by wnorm.
    - done.
    - exact Ht.
    - rewrite resolve_archive. exact Hw. }
  change (mbind ?k ?m) with (bind m k). unfold bind at 1. by rewrite Hd.
Qed.

Lemma node_at_archive (fs : gmap loc node) (bytes : string) :
  Fs.node_at (<[Install.archive := File bytes]> fs) Install.archive =
    Some (File bytes).
Proof. unfold Fs.node_at, Install.archive. by rewrite lookup_insert_eq. Qed.

(** Extraction of the archive just written. *)
Lemma extractall_archive args w t fs bytes :
  extractall tar_extractall (Pathlib.of_str "/tmp/rnnoise.tar.gz") (path args)
    (with_fs (with_trace w t) (<[Install.archive := File bytes]> fs)) =
    match tar_extractall bytes (Install.dest args w)
            (<[Install.archive := File bytes]> fs) with
    | Some fs' =>
        (Returned tt,
         with_fs (with_trace w (t ++ [Extractall Install.archive (Install.dest args w)]))
           fs')
    | None =>
        (Raised ReadError,
         with_fs (with_trace w (t ++ [Extractall Install.archive (Install.dest args w)]))
           (<[Install.archive := File bytes]> fs))
    end.
Proof.
  unfold extractall. autorewrite with world.
  rewrite resolve_archive, node_at_archive. fold (Install.dest args w).
  by destruct (tar_extractall _ _ _).
Qed.

Lemma unlink_archive w t fs :
  unlink (Pathlib.of_str "/tmp/rnnoise.tar.gz") (with_fs (with_trace w t) fs) =
    if Fs.is_file_at fs Install.archive
    then (Returned tt,
          with_fs (with_trace w (t ++ [Unlink Install.archive]))
            (delete Install.archive fs))
    else (Raised OSError, with_fs (with_trace w (t ++ [Unlink Install.archive])) fs).
Proof.
  unfold unlink. autorewrite with world. rewrite resolve_archive.
  by destruct (Fs.is_file_at fs Install.archive).
Qed.

(** The install action from the extraction on. *)
Lemma install_ending args w t fs bytes :
  (print stderr ("Extracting downloaded archive to: " +:+ Pathlib.str (path args));;
   extractall tar_extractall (Pathlib.of_str "/tmp/rnnoise.tar.gz") (path args);;
   unlink (Pathlib.of_str "/tmp/rnnoise.tar.gz");;
   print stderr ("RNNoise has been installed to: " +:+ Pathlib.str (path args)))
    (with_fs (with_trace w t) (<[Install.archive := File bytes]> fs)) =
    let extracting :=
      [Print stderr ("Extracting downloaded archive to: " +:+ Pathlib.str (path args));
       Extractall Install.archive (Install.dest args w)] in
    match tar_extractall bytes (Install.dest args w)
            (<[Install.archive := File bytes]> fs) with
    | Some fs' =>
        if Fs.is_file_at fs' Install.archive
        then (Returned tt,
              with_fs
                (with_trace w (t ++ extracting ++
                   [Unlink Install.archive;
                    Print stderr ("RNNoise has been installed to: " +:+
                                  Pathlib.str (path args))]))
                (delete Install.archive fs'))
        else (Raised OSError,
              with_fs (with_trace w (t ++ extracting ++ [Unlink Install.archive])) fs')
    | None =>
        (Raised ReadError,
         with_fs (with_trace w (t ++ extracting)) (<[Install.archive := File bytes]> fs))
    end.
Proof.
  cbv zeta. munfold.
  change (with_trace (with_fs (with_trace w t) ?f) ?u) with (with_fs (with_trace w u) f).
  rewrite with_fs_trace, with_trace_trace, extractall_archive.
  destruct (tar_extractall _ _ _) as [fs'|]; [|by rewrite <- app_assoc].
  rewrite unlink_archive.
  destruct (Fs.is_file_at fs' Install.archive); [|by rewrite <- !app_assoc].
  change (with_trace (with_fs (with_trace w ?t') ?f) ?u) with (with_fs (with_trace w u) f).
  rewrite with_fs_trace, with_trace_trace. by rewrite <- !app_assoc.
Qed.

End InstallFacts.

(** * Strings: stripping, reversing, searching *)

Section MoreStringFacts.

#[local] Arguments String.append !_ _ / : simpl nomatch.

Lemma append_nil_r (s : string) : s +:+ "" = s.
Proof. induction s; simpl; congruence. Qed.

Lemma has_char_app (c : ascii) (a b : string) :
  Py.has_char c (a +:+ b) = Py.has_char c a || Py.has_char c b.
Proof. induction a as [|x a IH]; [done|]. simpl. by rewrite IH, orb_assoc. Qed.

Lemma rev_app (a b : string) : Py.rev (a +:+ b) = Py.rev b +:+ Py.rev a.
Proof.
  induction a as [|x a IH]; simpl; [by rewrite append_nil_r|].
  by rewrite IH, append_assoc.
Qed.

Lemma rev_involutive (s : string) : Py.rev (Py.rev s) = s.
Proof. induction s as [|x s IH]; [done|]. simpl. by rewrite rev_app, IH. Qed.

Lemma has_char_rev (c : ascii) (s : string) :
  Py.has_char c (Py.rev s) = Py.has_char c s.
Proof.
  induction s as [|x s IH]; [done|]. simpl.
  rewrite has_char_app, IH. simpl. by rewrite orb_false_r, orb_comm.
Qed.

Lemma lstrip_absent (c : ascii) (s : string) :
  Py.has_char c s = false → Py.lstrip c s = s.
Proof.
  destruct s as [|x s]; [done|]. simpl. intros [Hx _]%orb_false_elim. by rewrite Hx.
Qed.

(** Stripping a character a text does not hold changes nothing. *)
Lemma strip_absent (c : ascii) (s : string) :
  Py.has_char c s = false → Py.strip c s = s.
Proof.
  intros H. unfold Py.strip. rewrite (lstrip_absent c s H).
  rewrite (lstrip_absent c (Py.rev s)); [apply rev_involutive|].
  by rewrite has_char_rev.
Qed.

(** Stripping removes the character on both sides of such a text. *)
Lemma strip_around (c : ascii) (s : string) :
  Py.has_char c s = false → Py.strip c (String c (s +:+ String c "")) = s.
Proof.
  intros H. unfold Py.strip. cbn [Py.lstrip]. rewrite Ascii.eqb_refl.
  destruct s as [|x s].
  - simpl. by rewrite Ascii.eqb_refl.
  - assert (Py.lstrip c (String x s +:+ String c "") = String x s +:+ String c "") as ->.
    { simpl in H. apply orb_false_elim in H as [Hx _]. simpl. by rewrite Hx. }
    rewrite rev_app.
    change (Py.rev (String c "") +:+ ?t) with (String c t).
    cbn [Py.lstrip]. rewrite Ascii.eqb_refl.
    rewrite (lstrip_absent c (Py.rev (String x s))); [apply rev_involutive|].
    by rewrite has_char_rev.
Qed.

(** A text without the separating character is one segment. *)
Lemma split_absent (c : ascii) (s : string) :
  Py.has_char c s = false → Py.split (String c "") s = [s].
Proof.
  intros H. unfold Py.split.
  destruct (split_go_plain c "" s "" H) as (seg & rest & Hs & Hp).
  rewrite append_nil_r in Hp. rewrite Hp. cbn in Hs. injection Hs as <- <-.
  by rewrite append_nil_r.
Qed.

Lemma search_filename_skip (p s : string) :
  Py.has_char "f" p = false →
  Re.search_filename (p +:+ s) = Re.search_filename s.
Proof.
  induction p as [|c p IH]; [done|]. simpl Py.has_char.
  intros [Hc Hp]%orb_false_elim. simpl String.append. cbn [Re.search_filename].
  assert (String.prefix "filename=" (String c (p +:+ s)) = false) as ->; [|by apply IH].
  cbn [String.prefix]. destruct (ascii_dec "f" c) as [<-|]; [|done].
  by rewrite Ascii.eqb_refl in Hc.
Qed.

Lemma search_filename_found (rest : string) :
  rest ≠ "" → Re.search_filename ("filename=" +:+ rest) = Some rest.
Proof.
  intros Hrest.
  change ("filename=" +:+ rest) with (String "f" ("ilename=" +:+ rest)).
  cbn [Re.search_filename].
  change (String "f" ("ilename=" +:+ rest)) with ("filename=" +:+ rest).
  rewrite prefix_append.
  change 9%nat with (String.length "filename="). rewrite drop_append.
  by destruct rest.
Qed.

(** On a header of one line the pattern gives its leftmost match or
    nothing. *)
Lemma findall_filename_line (h : string) :
  Py.has_char "010" h = false →
  Re.findall_filename h = from_option (λ m, [m]) [] (Re.search_filename h).
Proof.
  intros H. unfold Re.findall_filename, Py.newline. rewrite (split_absent _ _ H).
  cbn. by destruct (Re.search_filename h).
Qed.

Lemma div_absolute (p : Path) (rest : string) :
  p </> String "/" rest = Pathlib.of_str (String "/" rest).
Proof.
  unfold Pathlib.div.
  assert (Pathlib.root (Pathlib.of_str (String "/" rest)) ≠ "") as H.
  { unfold Pathlib.of_str. cbn [Pathlib.root Pathlib.leading_slashes].
    by destruct (Pathlib.leading_slashes rest) as [|[|]]. }
  by rewrite (bool_decide_false _ H).
Qed.

Lemma concat_cons (x : string) (xs : list string) :
  String.concat "" (x :: xs) = x +:+ String.concat "" xs.
Proof. destruct xs; simpl; [by rewrite append_nil_r|done]. Qed.

(** Chunks that are empty add nothing to the bytes. *)
Lemma content_all_chunks (stream : response) :
  Download.content stream = String.concat "" (r_chunks stream).
Proof.
  unfold Download.content. induction (r_chunks stream) as [|x xs IH]; [done|].
  rewrite filter_cons, concat_cons. case_decide as Hx.
  - by rewrite concat_cons, IH.
  - by rewrite IH, Hx.
Qed.

End MoreStringFacts.

Section MoreClaims.

Variable unquote : string → string.
Variable int : string → option Z.
Variable tar_extractall : string → loc → gmap loc node → option (gmap loc node).

Abbreviation run_script := (run unquote int tar_extractall).

(** X1.  Monitoring is best effort: when sink inspection finds both names,
    [enable_monitoring] returns normally, whatever the loopback command
    answers, having issued the status query and one loopback command from
    [denoised] to the output sink found; when sink inspection fails, it
    raises that error right after the query and issues no loopback. *)
Theorem enable_monitoring_best_effort (w : World) :
  (∀ i o, (get_default_sinks w).1 = Returned (i, o) →
     ∃ w', enable_monitoring w = (Returned tt, w') ∧
           calls (w_trace w') = calls (w_trace w) ++
             [ STAT;
               [PACMD; "load-module"; "module-loopback"; "latency_msec=1";
                "source=denoised"; "sink=" +:+ o] ] ∧
           w_fs w' = w_fs w) ∧
  (∀ e, (get_default_sinks w).1 = Raised e →
     ∃ w', enable_monitoring w = (Raised e, w') ∧
           calls (w_trace w') = calls (w_trace w) ++ [STAT]).
Proof.
  split.
  - intros i o Hs. rewrite enable_monitoring_run, Hs. eexists. split; [done|].
    split; [|done]. by rewrite with_trace_trace, calls_app.
  - intros e Hs. rewrite enable_monitoring_run, Hs. eexists. split; [done|].
    by rewrite with_trace_trace, calls_app.
Qed.

(** X2.  With the monitor option, a complete enable action asks for the
    default sinks twice: the loopback into the plugin takes its source from
    the first answer, and the monitor loopback takes its sink from the second
    answer, given after the five module commands. *)
Theorem enable_with_monitor_queries_twice (args : Args) (w : World)
    (i o i2 o2 : string) :
  action_ args = enable →
  monitor args = true →
  plugin_present args w = true →
  all_succeed w →
  (get_default_sinks w).1 = Returned (i, o) →
  (get_default_sinks (enable_rnnoise args w).2).1 = Returned (i2, o2) →
  (run_script args w).1 = 0 ∧
  calls (w_trace (run_script args w).2) = calls (w_trace w) ++
    [ STAT;
      [PACMD; "load-module"; "module-null-sink"; "sink_name=mic_denoised_out";
       "rate=48000"];
      [PACMD; "load-module"; "module-ladspa-sink"; "sink_name=mic_raw_in";
       "sink_master=mic_denoised_out"; "label=noise_suppressor_mono";
       "plugin=" +:+ Pathlib.str (ladspa_file args); "control=95"];
      [PACMD; "load-module"; "module-loopback"; "source=" +:+ i;
       "sink=mic_raw_in"; "channels=1"];
      [PACMD; "load-module"; "module-remap-source"; "source_name=denoised";
       "master=mic_denoised_out.monitor"; "channels=1"];
      [PACMD; "set-default-source"; "denoised"];
      STAT;
      [PACMD; "load-module"; "module-loopback"; "latency_msec=1";
       "source=denoised"; "sink=" +:+ o2] ].
Proof.
  intros Ha Hm Hp Hok Hs Hs2.
  pose proof (enable_rnnoise_ok _ _ _ _ Hs Hp Hok) as Hrun.
  rewrite Hrun in Hs2. cbn [snd] in Hs2.
  assert (enable_body args w =
            (Returned tt,
             with_trace w (w_trace w ++ enable_events args i o ++
               [Print stderr "Enabling monitoring on denoised input"; Run STAT] ++
               announce (monitor_command o2)))) as Hb.
  { unfold enable_body. munfold. rewrite Hrun, Hm, enable_monitoring_run, Hs2.
    by wnorm. }
  rewrite (run_enable _ _ _ _ _ Ha), (enable_action_returned _ _ _ Hb).
  split; [done|]. cbn [snd]. rewrite with_trace_trace, calls_app. by f_equal.
Qed.

(** X3.  The exit status of the enable action.  Where [pactl] can be
    executed it is 1 when sink inspection finds both names and the plugin
    binary is missing, and 0 in every other case, whatever the commands
    answer and whatever goes wrong in the [try] block.  Where [pactl] cannot
    be executed the handler fails in its turn: the status is 0 only when the
    [try] block returns, and 1 whenever it raises. *)
Theorem enable_exit_status (args : Args) (w : World) :
  action_ args = enable →
  (w_exec w PACTL = true →
   (run_script args w).1 =
     match (get_default_sinks w).1 with
     | Returned _ => if plugin_present args w then 0 else 1
     | Raised _ => 0
     end) ∧
  (w_exec w PACTL = false →
   (run_script args w).1 =
     match (enable_body args w).1 with
     | Returned _ => 0
     | Raised _ => 1
     end).
Proof.
  intros Ha. rewrite (run_enable _ _ _ _ _ Ha). split; intros Hx.
  - destruct (enable_action_shape args w) as (r & es & -> & Hr).
    unfold plugin_missed in Hr.
    destruct (get_default_sinks w).1.
    + destruct (plugin_present args w); cbn [negb] in Hr.
      * destruct Hr as [-> | [_ Hno]]; [done|congruence].
      * by subst r.
    + destruct Hr as [-> | [_ Hno]]; [done|congruence].
  - destruct (enable_body_shape args w) as (r & es & Hb & Hr). rewrite Hb. cbn [fst].
    destruct (plugin_missed args w).
    + subst r. by rewrite (enable_action_raised _ _ _ _ Hb).
    + destruct Hr as [-> | (e & -> & He)].
      * by rewrite (enable_action_returned _ _ _ Hb).
      * rewrite (enable_action_raised _ _ _ _ Hb), He.
        by rewrite enable_handler_absent.
Qed.

(** X4.  The enable and disable actions never change the file system or
    the working directory, and never erase an event: they only add to the
    trace. *)
Theorem enable_disable_leave_files (args : Args) (w : World) :
  action_ args = enable ∨ action_ args = disable →
  w_fs (run_script args w).2 = w_fs w ∧
  w_cwd (run_script args w).2 = w_cwd w ∧
  ∃ es, added w (run_script args w).2 es.
Proof.
  intros [Ha|Ha].
  - rewrite (run_enable _ _ _ _ _ Ha).
    destruct (enable_action_shape args w) as (r & es & -> & _).
    destruct r as [[]|[]]; cbn [snd]; autorewrite with world;
      (split; [done|split; [done|]]); eexists; unfold added;
      autorewrite with world; try rewrite <- app_assoc; done.
  - unfold run, script. rewrite Ha. unfold disable_action.
    destruct (disable_rnnoise_adds w) as (r & es & -> & _).
    destruct r as [[]|[]]; cbn [snd]; autorewrite with world;
      (split; [done|split; [done|]]); eexists; unfold added;
      autorewrite with world; try rewrite <- app_assoc; done.
Qed.

(** X5.  Sink inspection with a line missing, the status query being one
    that can be executed: without any line that names the default source it
    raises [UnboundLocalError] for [input_sink] (whether or not a sink is
    named); with a source line and no sink line it raises it for
    [output_sink].  The status query has run in both cases. *)
Theorem get_default_sinks_unbound (w : World) :
  w_exec w PACMD = true →
  ((∀ line, line ∈ Sinks.stat_lines w →
            Py.startswith line "Default source name: " = false) →
   get_default_sinks w =
     (Raised (UnboundLocalError "input_sink"),
      with_trace w (w_trace w ++ [Run STAT]))) ∧
  ((∃ line, line ∈ Sinks.stat_lines w ∧
            Py.startswith line "Default source name: " = true) →
   (∀ line, line ∈ Sinks.stat_lines w →
            Py.startswith line "Default sink name: " = false) →
   get_default_sinks w =
     (Raised (UnboundLocalError "output_sink"),
      with_trace w (w_trace w ++ [Run STAT]))).
Proof.
  intros Hx. split.
  - intros Hno%last_match_None. rewrite get_default_sinks_run, Hx.
    change Sinks.SOURCE with "Default source name: ". by rewrite Hno.
  - intros [ls Hs]%last_match_is_Some Hno%last_match_None.
    rewrite get_default_sinks_run, Hx.
    change Sinks.SOURCE with "Default source name: ".
    change Sinks.SINK with "Default sink name: ". by rewrite Hs, Hno.
Qed.

(** X6.  When several assets of a listing have a name that starts with
    [linux], resolution takes the URL of the one listed last. *)
Theorem resolve_download_url_last_wins (before after : list asset) (a : asset) :
  Py.startswith (name a) "linux" = true →
  (∀ b, b ∈ after → Py.startswith (name b) "linux" = false) →
  resolve_download_url (before ++ a :: after) = Some (browser_download_url a).
Proof.
  intros Ha Hafter. rewrite resolve_download_url_last. unfold for_linux.
  rewrite filter_app, filter_cons. case_decide; [|done].
  assert (filter (λ b, Py.startswith (name b) "linux" = true) after = []) as ->.
  { clear -Hafter. induction after as [|b l IH]; [done|].
    rewrite filter_cons. case_decide as Hb.
    - rewrite Hafter in Hb by left. done.
    - apply IH. intros c Hc. apply Hafter. by right. }
  by rewrite last_snoc.
Qed.




(** X10.  The file name a content-disposition header gives: for a name of
    one line without double quotes, the header [attachment; filename=] followed
    by the name between double quotes, or by the bare name, gives that name;
    nothing after [filename=] gives no name (the pattern needs a character), so
    that the URL decides. *)
Theorem disposition_file_name_attachment (n : string) :
  Py.has_char Py.dquote n = false →
  Py.has_char "010" n = false →
  disposition_file_name
    ("attachment; filename=" +:+ String Py.dquote (n +:+ String Py.dquote "")) = Some n ∧
  (n ≠ "" → disposition_file_name ("attachment; filename=" +:+ n) = Some n) ∧
  (n = "" → disposition_file_name ("attachment; filename=" +:+ n) = None).
Proof.
  intros Hq Hn. unfold disposition_file_name. split; [|split].
  - change ("attachment; filename=" +:+ ?x) with ("attachment; " +:+ "filename=" +:+ x).
    rewrite findall_filename_line.
    + rewrite search_filename_skip by done.
      rewrite search_filename_found by done. cbn [from_option].
      by rewrite strip_around.
    + rewrite !has_char_app. cbn [Py.has_char]. rewrite has_char_app, Hn. done.
  - intros Hne.
    change ("attachment; filename=" +:+ ?x) with ("attachment; " +:+ "filename=" +:+ x).
    rewrite findall_filename_line.
    + rewrite search_filename_skip by done.
      rewrite search_filename_found by done. cbn [from_option].
      by rewrite strip_absent.
    + by rewrite !has_char_app, Hn.
  - intros ->. done.
Qed.

(** X11.  A content-length header that is no integer stops the download
    with [ValueError] after the request: nothing is printed and no file is
    opened.  With an override the file system is as before; without one the
    save directory has already been created. *)
Theorem download_bad_content_length (url n : string) (save_as save_path : option string)
    (chunk_size : Z) (w : World) :
  r_headers (w_http w url) !! "content-length" = Some n →
  int n = None →
  (∀ s, save_as = Some s → s ≠ "" →
     download unquote int url save_as save_path chunk_size w =
       (Raised ValueError, with_trace w (w_trace w ++ [Get url]))) ∧
  (truthy save_as = false →
   ∀ fs',
     Fs.make_dirs (w_fs w) []
       (Fs.resolve (w_cwd w) (Pathlib.of_str (default "." save_path))) = Some fs' →
     download unquote int url save_as save_path chunk_size w =
       (Raised ValueError,
        with_fs
          (with_trace w (w_trace w ++
             [Get url;
              Mkdir (Fs.resolve (w_cwd w) (Pathlib.of_str (default "." save_path)))]))
          fs')).
Proof.
  intros Hh Hi. split.
  - intros s -> Hs. unfold download, requests_get, truthy, int_of.
    rewrite (bool_decide_true _ Hs). munfold. wnorm. by rewrite Hh, Hi.
  - intros Hs fs' Hm. unfold download, requests_get, mkdir_parents, int_of.
    rewrite Hs. munfold. wnorm. by rewrite Hm, Hh, Hi.
Qed.

(** X12.  A file name with a leading slash in the content-disposition
    header takes the place of the save directory: the file is written at that
    absolute path (URL-decoded), wherever the caller asked to save. *)
Theorem download_absolute_name_escapes (url : string) (save_as save_path : option string)
    (chunk_size : Z) (w : World) (d rest : string) (total : Z)
    (fs' : gmap loc node) :
  let out := Pathlib.of_str (unquote (Pathlib.str (Pathlib.of_str (String "/" rest)))) in
  truthy save_as = false →
  r_headers (w_http w url) !! "content-disposition" = Some d →
  disposition_file_name d = Some (String "/" rest) →
  Download.total_size int (w_http w url) = Some total →
  Fs.make_dirs (w_fs w) []
    (Fs.resolve (w_cwd w) (Pathlib.of_str (default "." save_path))) = Some fs' →
  Fs.writable fs' (Fs.resolve (w_cwd w) out) = true →
  (download unquote int url save_as save_path chunk_size w).1 = Returned out ∧
  w_fs (download unquote int url save_as save_path chunk_size w).2
    !! Fs.resolve (w_cwd w) out = Some (File (Download.content (w_http w url))).
Proof.
  intros out Hs Hh Hd Ht Hm Hw.
  assert (Download.file_name (w_http w url) = String "/" rest) as Hname.
  { unfold Download.file_name. rewrite Hh. cbn. by rewrite Hd. }
  rewrite (download_derived unquote int url save_as save_path chunk_size w total fs'
             Hs Ht Hm); rewrite Hname, div_absolute; [|exact Hw].
  split; [done|]. cbn [snd]. by rewrite with_fs_fs, lookup_insert_eq.
Qed.

(** X13.  Whenever [download] returns a path, the file at that path holds
    the bytes of the answer, all chunks in their order (an empty chunk adds
    nothing), and writing it was the last thing done. *)
Theorem download_writes_all_chunks (url : string) (save_as save_path : option string)
    (chunk_size : Z) (w w' : World) (p : Path) :
  download unquote int url save_as save_path chunk_size w = (Returned p, w') →
  w_fs w' !! Fs.resolve (w_cwd w) p =
    Some (File (String.concat "" (r_chunks (w_http w url)))) ∧
  last (w_trace w') =
    Some (Write_ (Fs.resolve (w_cwd w) p) (String.concat "" (r_chunks (w_http w url)))).
Proof.
  rewrite <- content_all_chunks.
  unfold download, requests_get, mkdir_parents, write_file, int_of. munfold.
  autorewrite with world.
  destruct (truthy save_as).
  - destruct (r_headers (w_http w url) !! "content-length") as [n|].
    + destruct (int n); [|done]. autorewrite with world.
      destruct (Fs.writable _ _); [|done]. intros [= <- <-].
      autorewrite with world. split; [apply lookup_insert_eq|].
      by rewrite last_app.
    + autorewrite with world.
      destruct (Fs.writable _ _); [|done]. intros [= <- <-].
      autorewrite with world. split; [apply lookup_insert_eq|].
      by rewrite last_app.
  - destruct (Fs.make_dirs _ _ _) as [fs'|]; [|done]. autorewrite with world.
    destruct (r_headers (w_http w url) !! "content-length") as [n|].
    + destruct (int n); [|done]. autorewrite with world.
      destruct (Fs.writable _ _); [|done]. intros [= <- <-].
      autorewrite with world. split; [apply lookup_insert_eq|].
      by rewrite last_app.
    + autorewrite with world.
      destruct (Fs.writable _ _); [|done]. intros [= <- <-].
      autorewrite with world. split; [apply lookup_insert_eq|].
      by rewrite last_app.
Qed.

End MoreClaims.

(** * The further properties at sample inputs *)

Lemma enable_monitoring_best_effort_witness :
  (enable_monitoring More.w_refusing).1 = Returned tt ∧
  ∃ e, (enable_monitoring Sample.w_no_server).1 = Raised e.
Proof.
  destruct (enable_monitoring_best_effort More.w_refusing) as [H _].
  destruct (enable_monitoring_best_effort Sample.w_no_server) as [_ H'].
  split.
  - destruct (H "alsa_input.pci-0000_00_1f.3.analog-stereo"
                "alsa_output.pci-0000_00_1f.3.analog-stereo") as (w' & -> & _).
    + vm_compute. reflexivity.
    + reflexivity.
  - destruct (H' (UnboundLocalError "input_sink")) as (w' & -> & _).
    + vm_compute. reflexivity.
    + eexists. reflexivity.
Defined.

Lemma enable_with_monitor_queries_twice_witness :
  (sample_run (Sample.args_of enable true) More.w_shifting).1 = 0 ∧
  last (calls (w_trace (sample_run (Sample.args_of enable true) More.w_shifting).2)) =
    Some [PACMD; "load-module"; "module-loopback"; "latency_msec=1";
          "source=denoised"; "sink=headphones"].
Proof.
  destruct (enable_with_monitor_queries_twice Sample.unquote Sample.int
              Sample.tar_extractall (Sample.args_of enable true) More.w_shifting
              "mic" "speakers" "denoised" "headphones") as [Hstatus Hcalls].
  - reflexivity.
  - reflexivity.
  - vm_compute. reflexivity.
  - intros history command. unfold More.w_shifting, Sample.world, More.shifting. cbn.
    by case_bool_decide.
  - vm_compute. reflexivity.
  - vm_compute. reflexivity.
  - split; [exact Hstatus|]. rewrite Hcalls. reflexivity.
Defined.

Lemma enable_exit_status_witness :
  (sample_run (Sample.args_of enable false) Sample.w_no_plugin).1 = 1 ∧
  (sample_run (Sample.args_of enable true) More.w_refusing).1 = 0 ∧
  (sample_run (Sample.args_of enable false) More.w_no_pactl).1 = 1 ∧
  (sample_run (Sample.args_of enable false) More.w_ready_no_pactl).1 = 0.
Proof.
  split; [|split; [|split]].
  - rewrite (proj1 (enable_exit_status Sample.unquote Sample.int Sample.tar_extractall
                      (Sample.args_of enable false) Sample.w_no_plugin eq_refl)
               eq_refl).
    vm_compute. reflexivity.
  - rewrite (proj1 (enable_exit_status Sample.unquote Sample.int Sample.tar_extractall
                      (Sample.args_of enable true) More.w_refusing eq_refl)
               eq_refl).
    vm_compute. reflexivity.
  - rewrite (proj2 (enable_exit_status Sample.unquote Sample.int Sample.tar_extractall
                      (Sample.args_of enable false) More.w_no_pactl eq_refl)
               eq_refl).
    vm_compute. reflexivity.
  - rewrite (proj2 (enable_exit_status Sample.unquote Sample.int Sample.tar_extractall
                      (Sample.args_of enable false) More.w_ready_no_pactl eq_refl)
               eq_refl).
    vm_compute. reflexivity.
Defined.

Lemma enable_disable_leave_files_witness :
  w_fs (sample_run (Sample.args_of enable true) More.w_refusing).2 = Sample.fs_installed ∧
  w_fs (sample_run (Sample.args_of disable false) More.w_refusing).2 = Sample.fs_installed.
Proof.
  split.
  - exact (proj1 (enable_disable_leave_files Sample.unquote Sample.int
                    Sample.tar_extractall (Sample.args_of enable true) More.w_refusing
                    (or_introl eq_refl))).
  - exact (proj1 (enable_disable_leave_files Sample.unquote Sample.int
                    Sample.tar_extractall (Sample.args_of disable false) More.w_refusing
                    (or_intror eq_refl))).
Defined.

Lemma get_default_sinks_unbound_witness :
  (get_default_sinks More.w_sink_only).1 = Raised (UnboundLocalError "input_sink") ∧
  (get_default_sinks More.w_source_only).1 = Raised (UnboundLocalError "output_sink").
Proof.
  split.
  - destruct (get_default_sinks_unbound More.w_sink_only eq_refl) as [H _]. rewrite H.
    + reflexivity.
    + intros line Hin. apply (bool_decide_pack _) in Hin. revert Hin.
      vm_compute Sinks.stat_lines. intros Hin%bool_decide_unpack.
      repeat (apply elem_of_cons in Hin as [->|Hin]; [reflexivity|]).
      by apply not_elem_of_nil in Hin.
  - destruct (get_default_sinks_unbound More.w_source_only eq_refl) as [_ H]. rewrite H.
    + reflexivity.
    + exists "Default source name: in". split; [|reflexivity].
      apply (bool_decide_unpack _). vm_compute. exact I.
    + intros line Hin. apply (bool_decide_pack _) in Hin. revert Hin.
      vm_compute Sinks.stat_lines. intros Hin%bool_decide_unpack.
      repeat (apply elem_of_cons in Hin as [->|Hin]; [reflexivity|]).
      by apply not_elem_of_nil in Hin.
Defined.

Lemma resolve_download_url_last_wins_witness :
  resolve_download_url
    [ {| name := "linux-rnnoise.zip"; browser_download_url := "https://x/1" |};
      {| name := "linux_rnnoise.zip"; browser_download_url := "https://x/2" |};
      {| name := "macos-rnnoise.zip"; browser_download_url := "https://x/3" |} ] =
    Some "https://x/2".
Proof.
  apply (resolve_download_url_last_wins
           [ {| name := "linux-rnnoise.zip"; browser_download_url := "https://x/1" |} ]
           [ {| name := "macos-rnnoise.zip"; browser_download_url := "https://x/3" |} ]
           {| name := "linux_rnnoise.zip"; browser_download_url := "https://x/2" |}).
  - reflexivity.
  - intros b Hb. apply list_elem_of_singleton in Hb. rewrite Hb. reflexivity.
Defined.




(** * Locations under the install directory *)

Section LocationFacts.

Lemma walk_plain (seen l : loc) :
  (∀ x, x ∈ l → x ≠ "..") → Fs.walk seen l = reverse seen ++ l.
Proof.
  revert seen. induction l as [|x l IH]; intros seen Hl; [by rewrite app_nil_r|].
  cbn [Fs.walk]. rewrite bool_decide_false by (apply Hl; left).
  rewrite IH by (intros y Hy; apply Hl; by right).
  by rewrite reverse_cons, <- app_assoc.
Qed.

Lemma walk_app_plain (seen l k : loc) :
  (∀ x, x ∈ k → x ≠ "..") → Fs.walk seen (l ++ k) = Fs.walk seen l ++ k.
Proof.
  intros Hk. revert seen. induction l as [|x l IH]; intros seen.
  - cbn [app Fs.walk]. by apply walk_plain.
  - cbn [app Fs.walk]. by destruct (bool_decide (x = "..")).
Qed.

(** The plugin binary is three components under the install directory,
    as locations too. *)
Lemma resolve_ladspa_file (cwd : loc) (args : Args) :
  Fs.resolve cwd (ladspa_file args) =
    Fs.resolve cwd (path args) ++ ["bin"; "ladspa"; "librnnoise_ladspa.so"].
Proof.
  rewrite ladspa_file_under. unfold Fs.resolve. cbn [Pathlib.root Pathlib.parts].
  apply walk_app_plain. intros x Hx.
  repeat (apply elem_of_cons in Hx as [->|Hx]; [done|]).
  by apply not_elem_of_nil in Hx.
Qed.

(** Nothing under a removed tree is a file. *)
Lemma is_file_at_remove_tree (fs : gmap loc node) (l k : loc) :
  k ≠ [] → Fs.is_file_at (Fs.remove_tree fs l) (l ++ k) = false.
Proof.
  intros Hk. unfold Fs.is_file_at, Fs.node_at, Fs.remove_tree.
  destruct (l ++ k) as [|x lk] eqn:E.
  - by apply app_nil in E as [_ ->].
  - rewrite map_lookup_filter_None_2; [done|].
    right. intros v _ Hnot. apply Hnot. cbn. rewrite <- E. by apply prefix_app_r.
Qed.

End LocationFacts.

Section Sequences.

Variable unquote : string → string.
Variable int : string → option Z.
Variable tar_extractall : string → loc → gmap loc node → option (gmap loc node).

Abbreviation run_script := (run unquote int tar_extractall).

Lemma run_uninstall_installed args w :
  action_ args = uninstall →
  installed args w = true →
  w_exec w PACTL = true →
  run_script args w =
    (0, with_fs
          (with_trace w (w_trace w ++ disable_events ++
             [Print stdout ("Removing RNNoise directory: " +:+ Pathlib.str (path args));
              Rmtree (Fs.resolve (w_cwd w) (path args))]))
          (Fs.remove_tree (w_fs w) (Fs.resolve (w_cwd w) (path args)))).
Proof.
  intros Ha Hd Hx. unfold run, script. rewrite Ha.
  unfold uninstall_action, is_dir, rmtree. munfold. unfold installed in Hd.
  rewrite Hd, (disable_rnnoise_run w Hx). wnorm. rewrite Hd. by wnorm.
Qed.


End Sequences.

(** * The first module command that fails *)

Section FirstFailure.

Abbreviation checked_loop commands :=
  (for_in commands (λ command : list string,
     print stderr (Shlex.join command);;
     subprocess_run command true;;
     mret tt)).

(** The loop stops at the first command that exits with a status other than
    zero and raises the error of that command. *)
Lemma checked_loop_fails (pre post : list (list string)) (c : list string) (rc : Z)
    (w : World) :
  (∀ c', c' ∈ pre ++ [c] → runnable w c' = true) →
  (∀ history c', c' ∈ pre → (w_tools w history c').1 = 0) →
  (∀ history, (w_tools w history c).1 = rc) →
  rc ≠ 0 →
  checked_loop (pre ++ c :: post) w =
    (Raised (CalledProcessError rc c),
     with_trace w (w_trace w ++ flat_map announce (pre ++ [c]))).
Proof.
  intros Hx Hpre Hc Hrc. revert w Hx Hpre Hc.
  induction pre as [|c0 pre IH]; intros w Hx Hpre Hc.
  - cbn [app]. rewrite for_in_cons. cbv beta.
    rewrite checked_step by (apply Hx; left). cbv zeta.
    rewrite Hc. apply Z.eqb_neq in Hrc. rewrite Hrc. cbn [negb flat_map].
    by rewrite app_nil_r.
  - cbn [app]. rewrite for_in_cons. cbv beta.
    rewrite checked_step by (apply Hx; left). cbv zeta.
    rewrite Hpre by left. cbn [Z.eqb negb].
    rewrite IH.
    + cbn [flat_map]. by wnorm.
    + intros c' Hin. rewrite with_trace_runnable. apply Hx. by right.
    + intros history c' Hin. rewrite with_trace_tools. apply Hpre. by right.
    + intros history. rewrite with_trace_tools. apply Hc.
Qed.

(** X15.  Strict failure in [enable_rnnoise]: when the plugin is in place
    and both names are found, the module commands are issued in their order
    up to the first one that exits with a status other than zero; that one
    raises [CalledProcessError] with its status and its command line, and no
    later module command is issued. *)
Theorem enable_stops_at_first_failure (args : Args) (w : World) (i o : string)
    (pre post : list (list string)) (c : list string) (rc : Z) :
  (get_default_sinks w).1 = Returned (i, o) →
  plugin_present args w = true →
  enable_commands args i = pre ++ c :: post →
  (∀ history c', c' ∈ pre → (w_tools w history c').1 = 0) →
  (∀ history, (w_tools w history c).1 = rc) →
  rc ≠ 0 →
  ∃ w', enable_rnnoise args w = (Raised (CalledProcessError rc c), w') ∧
        calls (w_trace w') = calls (w_trace w) ++ STAT :: pre ++ [c].
Proof.
  intros Hs Hp Hsplit Hpre Hc Hrc.
  rewrite (enable_rnnoise_loop _ _ _ _ Hs Hp), Hsplit.
  rewrite (checked_loop_fails pre post c rc); [| |done..].
  2:{ intros c' Hin. rewrite with_trace_runnable.
      apply (enable_commands_runnable args i); [by eapply get_default_sinks_exec|].
      rewrite Hsplit, (assoc_L _ pre [c] post : pre ++ c :: post = _).
      by apply elem_of_app; left. }
  eexists. split; [done|].
  rewrite !with_trace_trace, <- app_assoc, calls_app. f_equal.
  rewrite calls_app, calls_announce. done.
Qed.

End FirstFailure.

Lemma disposition_file_name_attachment_witness :
  disposition_file_name
    ("attachment; filename=" +:+ String Py.dquote ("a b.tar.gz" +:+ String Py.dquote "")) =
    Some "a b.tar.gz" ∧
  disposition_file_name "attachment; filename=plugin.tar.gz" = Some "plugin.tar.gz".
Proof.
  split.
  - exact (proj1 (disposition_file_name_attachment "a b.tar.gz" eq_refl eq_refl)).
  - apply (proj1 (proj2 (disposition_file_name_attachment "plugin.tar.gz"
                           eq_refl eq_refl))).
    discriminate.
Defined.

Lemma download_bad_content_length_witness :
  (download Sample.unquote Sample.int "https://x/y" (Some "/tmp/rnnoise.tar.gz") None
     4096 (More.w_answer "attachment" "many")).1 = Raised ValueError ∧
  w_trace (download Sample.unquote Sample.int "https://x/y" (Some "/tmp/rnnoise.tar.gz")
             None 4096 (More.w_answer "attachment" "many")).2 = [Get "https://x/y"].
Proof.
  destruct (download_bad_content_length Sample.unquote Sample.int "https://x/y" "many"
              (Some "/tmp/rnnoise.tar.gz") None 4096
              (More.w_answer "attachment" "many") eq_refl eq_refl) as [H _].
  rewrite (H "/tmp/rnnoise.tar.gz" eq_refl); [|discriminate].
  split; reflexivity.
Defined.

Lemma download_absolute_name_escapes_witness :
  (download Sample.unquote Sample.int "https://x/y" None (Some "dl") 4096
     (More.w_answer "attachment; filename=/tmp/other.tar.gz" "7")).1 =
    Returned (Pathlib.of_str "/tmp/other.tar.gz").
Proof.
  destruct (download_absolute_name_escapes Sample.unquote Sample.int "https://x/y"
              None (Some "dl") 4096
              (More.w_answer "attachment; filename=/tmp/other.tar.gz" "7")
              "attachment; filename=/tmp/other.tar.gz" "tmp/other.tar.gz" 7
              (default ∅ (Fs.make_dirs Sample.fs_fresh [] ["home"; "user"; "dl"])))
    as [H _].
  - reflexivity.
  - reflexivity.
  - vm_compute. reflexivity.
  - reflexivity.
  - vm_compute. reflexivity.
  - vm_compute. reflexivity.
  - rewrite H. vm_compute. reflexivity.
Defined.

Lemma download_writes_all_chunks_witness :
  w_fs (download Sample.unquote Sample.int "https://x/y" (Some "/tmp/rnnoise.tar.gz")
          None 4096 Sample.w_fresh).2 !! ["tmp"; "rnnoise.tar.gz"] =
    Some (File "abcdefg").
Proof.
  destruct (download_writes_all_chunks Sample.unquote Sample.int "https://x/y"
              (Some "/tmp/rnnoise.tar.gz") None 4096 Sample.w_fresh
              (download Sample.unquote Sample.int "https://x/y"
                 (Some "/tmp/rnnoise.tar.gz") None 4096 Sample.w_fresh).2
              (Pathlib.of_str "/tmp/rnnoise.tar.gz")) as [H _].
  - apply pair_fst_eq. vm_compute. reflexivity.
  - exact H.
Defined.

Lemma enable_stops_at_first_failure_witness :
  ∃ w', enable_rnnoise (Sample.args_of enable false) Sample.w_no_loopback =
          (Raised (CalledProcessError 1
                     [PACMD; "load-module"; "module-loopback";
                      "source=alsa_input.pci-0000_00_1f.3.analog-stereo";
                      "sink=mic_raw_in"; "channels=1"]), w') ∧
        length (calls (w_trace w')) = 4%nat.
Proof.
  destruct (enable_stops_at_first_failure (Sample.args_of enable false)
              Sample.w_no_loopback
              "alsa_input.pci-0000_00_1f.3.analog-stereo"
              "alsa_output.pci-0000_00_1f.3.analog-stereo"
              (take 2 (enable_commands (Sample.args_of enable false)
                         "alsa_input.pci-0000_00_1f.3.analog-stereo"))
              (drop 3 (enable_commands (Sample.args_of enable false)
                         "alsa_input.pci-0000_00_1f.3.analog-stereo"))
              [PACMD; "load-module"; "module-loopback";
               "source=alsa_input.pci-0000_00_1f.3.analog-stereo";
               "sink=mic_raw_in"; "channels=1"] 1)
    as (w' & Hrun & Hcalls).
  - vm_compute. reflexivity.
  - vm_compute. reflexivity.
  - reflexivity.
  - intros history c' Hin. cbn [take enable_commands] in Hin.
    repeat (apply elem_of_cons in Hin as [->|Hin]; [reflexivity|]).
    by apply not_elem_of_nil in Hin.
  - intros history. reflexivity.
  - discriminate.
  - exists w'. split; [exact Hrun|]. rewrite Hcalls. reflexivity.
Defined.

